(** * The vocabulary index generator ([.github/scripts/generate_index.py])

    A shallow embedding of the script that walks the repository, reads every
    [*.json] vocabulary description and writes a CSV index, together with the
    properties of its three operations: discovery ([find_json_files]),
    extraction ([extract_metadata]) and generation ([generate_index]).

    A Python [str] is kept as the bytes of its UTF-8 form, so that comparing
    two of them byte by byte orders them as Python does, by code point.  A
    lone surrogate, which [json.load] builds from an escape such as [\ud800]
    and which UTF-8 proper does not encode, is kept as the three bytes
    [ED A0..BF 80..BF] (see [has_surrogate]). *)

From Stdlib Require Import String Ascii List ZArith Lia Bool DecimalString.
From stdpp Require Import base list sorting gmap strings.

Set Warnings "-register-all".

(** ** Python values, exceptions and effects *)

Module Py.

(** What [json.load] builds: [None], [bool], [int], [float], [str], [list]
    and [dict].  A [dict] keeps its members in document order; on a repeated
    key the last member is the one the dictionary holds (see [dict_get]).  A
    float is kept by its [repr]. *)
Inductive value :=
| PNone
| PBool (b : bool)
| PInt (n : Z)
| PFloat (repr : string)
| PStr (s : string)
| PList (items : list value)
| PDict (members : list (string * value)).

Abbreviation dict := (list (string * value)).

(** [d.get(key, default)] *)
Definition dict_get (d : dict) (key : string) (default : value) : value :=
  fold_left (fun found m => if String.eqb (fst m) key then snd m else found) d default.

Definition dict_keys (d : dict) : list string := map fst d.

(** [c in s], for a character of a string *)
Fixpoint contains (c : ascii) (s : string) : bool :=
  match s with
  | EmptyString => false
  | String a s' => Ascii.eqb a c || contains c s'
  end.

(** The form of a surrogate opens with the byte [ED] followed by a byte of
    [A0..BF]. *)
Definition starts_trail (s : string) : bool :=
  match s with
  | EmptyString => false
  | String b _ => (160 <=? nat_of_ascii b)%nat && (nat_of_ascii b <=? 191)%nat
  end.

(** The text ends with the byte [ED]. *)
Fixpoint ends_lead (s : string) : bool :=
  match s with
  | EmptyString => false
  | String a EmptyString => Ascii.eqb a "237"
  | String _ rest => ends_lead rest
  end.

(** A character that takes no part in the form of a surrogate. *)
Definition plain (c : ascii) : Prop :=
  Ascii.eqb c "237" = false /\ starts_trail (String c EmptyString) = false.

(** The text holds a lone surrogate: encoding it as UTF-8 raises
    [UnicodeEncodeError]. *)
Fixpoint has_surrogate (s : string) : bool :=
  match s with
  | EmptyString => false
  | String a rest => (Ascii.eqb a "237" && starts_trail rest) || has_surrogate rest
  end.

(** The exception classes the script can meet.  [IOError] is an alias of
    [OSError]; [JSONDecodeError], [UnicodeDecodeError] and
    [UnicodeEncodeError] are subclasses of [ValueError], and none is a
    subclass of another; [OverflowError] and [RecursionError] are apart. *)
Inductive exn :=
| OSError (msg : string)
| JSONDecodeError (msg : string)
| UnicodeDecodeError (msg : string)
| UnicodeEncodeError (msg : string)
| AttributeError (msg : string)
| ValueError (msg : string)
| OverflowError (msg : string)
| RecursionError (msg : string).

(** [str(e)] *)
Definition str_exn (e : exn) : string :=
  match e with
  | OSError m | JSONDecodeError m | UnicodeDecodeError m | UnicodeEncodeError m
  | AttributeError m | ValueError m | OverflowError m | RecursionError m => m
  end.

Inductive result (A : Type) :=
| Ok (a : A)
| Raise (e : exn).
Arguments Ok {A} a.
Arguments Raise {A} e.

(** The part of the world the script writes to: the lines printed on standard
    output and the text of the output file ([None] while it has not been
    opened for writing). *)
Record World := mkWorld { stdout : list string; outfile : option string }.

(** A computation either returns or raises, and updates the world. *)
Definition M (A : Type) : Type := World -> result A * World.

Definition ret {A} (a : A) : M A := fun w => (Ok a, w).
Definition raise {A} (e : exn) : M A := fun w => (Raise e, w).
Definition bind {A B} (m : M A) (k : A -> M B) : M B :=
  fun w => match m w with
           | (Ok a, w') => k a w'
           | (Raise e, w') => (Raise e, w')
           end.
Definition lift {A} (r : result A) : M A := fun w => (r, w).

(** [try: body  except <classes> as e: handler] *)
Definition try_except {A} (body : M A) (caught : exn -> bool) (handler : exn -> M A) : M A :=
  fun w => match body w with
           | (Raise e, w') => if caught e then handler e w' else (Raise e, w')
           | done => done
           end.

(** [print(line)]; the standard output is taken to accept every line. *)
Definition print (line : string) : M unit :=
  fun w => (Ok tt, mkWorld (stdout w ++ [line]) (outfile w)).

(** [open(output_file, 'w', encoding='utf-8')] truncates the file. *)
Definition open_w : M unit :=
  fun w => (Ok tt, mkWorld (stdout w) (Some "")).

(** The exception of the [utf-8] codec for a lone surrogate. *)
Definition encode_error : exn :=
  UnicodeEncodeError "'utf-8' codec can't encode character: surrogates not allowed".

(** [csvfile.write(text)] encodes the text and appends it to the file; a
    text with a lone surrogate is refused, and the file keeps what it had. *)
Definition write (text : string) : M unit :=
  fun w =>
    if has_surrogate text
    then (Raise encode_error, w)
    else (Ok tt, mkWorld (stdout w) (Some (default "" (outfile w) +:+ text))).

End Py.
Import Py.

#[global] Instance M_ret : MRet M := @Py.ret.
#[global] Instance M_bind : MBind M := fun A B k m => Py.bind m k.

(** ** [pathlib] *)

Module Pathlib.

(** [Path] is [PosixPath] or [WindowsPath], by the platform. *)
Inductive Flavour := Posix | Windows.

Definition sep (fl : Flavour) : string :=
  match fl with Posix => "/" | Windows => "\" end.

Definition lower_ascii (c : ascii) : ascii :=
  let n := nat_of_ascii c in
  if (65 <=? n)%nat && (n <=? 90)%nat then ascii_of_nat (n + 32) else c.

(** [str.lower()], on the ASCII letters; what depends on the Windows
    flavour is stated for names in ASCII ([ascii_names]). *)
Fixpoint lower (s : string) : string :=
  match s with
  | EmptyString => EmptyString
  | String c s' => String (lower_ascii c) (lower s')
  end.

(** Windows paths compare and match without regard to case. *)
Definition normcase (fl : Flavour) (s : string) : string :=
  match fl with Posix => s | Windows => lower s end.

(** A path: its anchor (drive and root, empty for a relative path) and the
    names below it. *)
Record Path := mkPath { anchor : string; names : list string }.

#[global] Instance Path_eq_dec : EqDecision Path.
Proof. solve_decision. Defined.

(** [path.parts] *)
Definition parts (p : Path) : list string :=
  if decide (anchor p = "") then names p else anchor p :: names p.

(** [path.name] *)
Definition name (p : Path) : string := default "" (last (names p)).

(** [path.parent] *)
Definition parent (p : Path) : Path := mkPath (anchor p) (removelast (names p)).

(** [path / a / b / ...] *)
Definition joinpath (p : Path) (rel : list string) : Path :=
  mkPath (anchor p) (names p ++ rel).

(** [str(path)] *)
Definition str (fl : Flavour) (p : Path) : string :=
  if decide (anchor p = "") then
    match names p with
    | [] => "."
    | _ => String.concat (sep fl) (names p)
    end
  else anchor p +:+ String.concat (sep fl) (names p).

(** [s.rfind(c)]: the highest index of [c] in [s], or [-1]. *)
Fixpoint rfind_aux (c : ascii) (s : string) (i found : Z) : Z :=
  match s with
  | EmptyString => found
  | String a s' => rfind_aux c s' (i + 1)%Z (if Ascii.eqb a c then i else found)
  end.
Definition rfind (c : ascii) (s : string) : Z := rfind_aux c s 0%Z (-1)%Z.

(** [PurePath.suffix] of a name: from its last dot, unless that dot is the
    first or the last character. *)
Definition suffix (nm : string) : string :=
  let i := rfind "." nm in
  if (0 <? i)%Z && (i <? Z.of_nat (String.length nm) - 1)%Z
  then substring (Z.to_nat i) (String.length nm - Z.to_nat i) nm
  else "".

(** [PurePath.stem] of a name: the name without its suffix. *)
Definition stem (nm : string) : string :=
  let sfx := suffix nm in
  if decide (sfx = "") then nm
  else substring 0 (String.length nm - String.length sfx) nm.

(** [path.with_suffix(sfx)], for a well-formed [sfx] (empty or starting with
    a dot, as the script's [''] is). *)
Definition with_suffix (p : Path) (sfx : string) : result Path :=
  let nm := name p in
  if decide (nm = "") then Raise (ValueError "path has an empty name")
  else
    let old_suffix := suffix nm in
    let nm' := if decide (old_suffix = "") then nm +:+ sfx
               else substring 0 (String.length nm - String.length old_suffix) nm +:+ sfx in
    Ok (mkPath (anchor p) (removelast (names p) ++ [nm'])).

(** [self.relative_to(other)] *)
Definition relative_to (fl : Flavour) (self other : Path) : result Path :=
  if decide (normcase fl (anchor self) = normcase fl (anchor other)
             /\ map (normcase fl) (names other) `prefix_of` map (normcase fl) (names self))
  then Ok (mkPath "" (drop (length (names other)) (names self)))
  else Raise (ValueError (str fl self +:+ " is not in the subpath of " +:+ str fl other)).

(** Paths are ordered as the tuples of their case-normalised parts, strings
    by code point. *)
Definition sort_key (fl : Flavour) (p : Path) : list string :=
  map (normcase fl) (parts p).

Definition path_lt (fl : Flavour) (p q : Path) : Prop :=
  list_compare String.compare (sort_key fl p) (sort_key fl q) = Lt.

(** [sorted] only asks [<]: [p] may stay before [q] unless [q < p]. *)
Definition path_le (fl : Flavour) (p q : Path) : Prop := ~ path_lt fl q p.

#[global] Instance path_lt_dec fl p q : Decision (path_lt fl p q).
Proof. unfold path_lt. solve_decision. Defined.
#[global] Instance path_le_dec fl p q : Decision (path_le fl p q).
Proof. unfold path_le. solve_decision. Defined.

(** [sorted(paths)]: a stable merge sort. *)
Definition sorted (fl : Flavour) (paths : list Path) : list Path :=
  merge_sort (path_le fl) paths.

(** [s.endswith(sfx)] *)
Definition endswith (s sfx : string) : bool :=
  (String.length sfx <=? String.length s)%nat
  && String.eqb (substring (String.length s - String.length sfx) (String.length sfx) s) sfx.

(** Matching a name against a pattern whose only wildcard is a leading star,
    as [JSON_PATTERN] is. *)
Definition fnmatch (fl : Flavour) (nm pattern : string) : bool :=
  match pattern with
  | String "*" literal => endswith (normcase fl nm) (normcase fl literal)
  | _ => String.eqb (normcase fl nm) (normcase fl pattern)
  end.

End Pathlib.
Import Pathlib.

(** ** The file system *)

(** What [open(path, 'r', encoding='utf-8')] followed by [json.load] does
    with a file. *)
Inductive Content :=
| Unreadable (err : string)    (* [open] raises [OSError]: no permission, a directory, ... *)
| Undecodable (err : string)   (* the bytes are not UTF-8: reading raises [UnicodeDecodeError] *)
| Malformed (err : string)     (* the text is not JSON: [json.load] raises [JSONDecodeError] *)
| Unloadable (e : exn)         (* [json.load] raises something else: a plain [ValueError] for
                                  an integer of too many digits, a [RecursionError] for too
                                  deep a nesting *)
| Document (data : value).     (* [json.load] returns [data] *)

(** A file: its modification time (microseconds since the epoch) and its
    content. *)
Record File := mkFile { st_mtime : Z; content : Content }.

(** A snapshot of the file system.  [walk root] lists every entry below
    [root], each as the directories leading to it and its own name, in the
    order in which a recursive walk of [root] meets them; [file_at] is what a
    path holds ([None]: nothing there). *)
Record FileSystem := mkFS {
  walk : Path -> list (list string * string);
  file_at : Path -> option File
}.

(** [root.rglob(pattern)] *)
Definition rglob (fl : Flavour) (fs : FileSystem) (root : Path) (pattern : string) : list Path :=
  omap (fun e => if fnmatch fl (snd e) pattern
                 then Some (joinpath root (fst e ++ [snd e])) else None)
       (walk fs root).

(** [open(path, 'r', encoding='utf-8')] and [json.load] *)
Definition json_load (fs : FileSystem) (path : Path) : result value :=
  match file_at fs path with
  | None => Raise (OSError "[Errno 2] No such file or directory")
  | Some f =>
      match content f with
      | Unreadable err => Raise (OSError err)
      | Undecodable err => Raise (UnicodeDecodeError err)
      | Malformed err => Raise (JSONDecodeError err)
      | Unloadable e => Raise e
      | Document data => Ok data
      end
  end.

(** [path.stat().st_mtime] *)
Definition stat_mtime (fs : FileSystem) (path : Path) : result Z :=
  match file_at fs path with
  | None => Raise (OSError "[Errno 2] No such file or directory")
  | Some f => Ok (st_mtime f)
  end.

(** [data.get(key, default)]: only a [dict] has a [get]. *)
Definition get (data : value) (key : string) (default : value) : result value :=
  match data with
  | PDict d => Ok (dict_get d key default)
  | _ => Raise (AttributeError "object has no attribute 'get'")
  end.

(** ** The [csv] module: [csv.DictWriter] with the default (excel) dialect *)

Module Csv.

Definition delimiter : ascii := ",".
Definition quotechar : ascii := "034".
Definition lineterminator : string := String "013" (String "010" EmptyString).

(** QUOTE_MINIMAL: a field is quoted when it holds the delimiter, the quote
    character or a character of the line terminator. *)
Fixpoint needs_quotes (field : string) : bool :=
  match field with
  | EmptyString => false
  | String c rest =>
      Ascii.eqb c delimiter || Ascii.eqb c quotechar || contains c lineterminator
      || needs_quotes rest
  end.

(** Inside a quoted field the quote character is doubled. *)
Fixpoint double_quotes (field : string) : string :=
  match field with
  | EmptyString => EmptyString
  | String c rest =>
      if Ascii.eqb c quotechar then String c (String c (double_quotes rest))
      else String c (double_quotes rest)
  end.

Definition quoted (field : string) : string :=
  String quotechar (double_quotes field +:+ String quotechar EmptyString).

Definition format_field (field : string) : string :=
  if needs_quotes field then quoted field else field.

(** One record: the fields joined by the delimiter and terminated; a record
    of a single empty field is written as an empty quoted field. *)
Definition format_row (fields : list string) : string :=
  match fields with
  | [EmptyString] => quoted "" +:+ lineterminator
  | _ => String.concat (String delimiter EmptyString) (map format_field fields)
         +:+ lineterminator
  end.

Section Writer.
(** [str(v)] of a Python value, which the writer applies to a cell that is
    neither a [str] nor [None]. *)
Variable py_str : value -> string.

Definition cell (v : value) : string :=
  match v with
  | PNone => ""
  | PStr s => s
  | other => py_str other
  end.

(** [writer.writerow(row)] *)
Definition writer_writerow (row : list value) : M unit :=
  write (format_row (map cell row)).

(** [DictWriter._dict_to_list], with [extrasaction='raise'] and
    [restval='']. *)
Definition dict_to_list (fieldnames : list string) (rowdict : dict) : result (list value) :=
  let wrong_fields := filter (fun k => k ∉ fieldnames) (dict_keys rowdict) in
  match wrong_fields with
  | [] => Ok (map (fun key => dict_get rowdict key (PStr "")) fieldnames)
  | _ => Raise (ValueError "dict contains fields not in fieldnames")
  end.

(** [DictWriter.writerow(rowdict)] *)
Definition writerow (fieldnames : list string) (rowdict : dict) : M unit :=
  row ← lift (dict_to_list fieldnames rowdict);
  writer_writerow row.

(** [DictWriter.writeheader()] *)
Definition writeheader (fieldnames : list string) : M unit :=
  let header := map (fun key => (key, PStr key)) fieldnames in
  writerow fieldnames header.

(** [DictWriter.writerows(rowdicts)] *)
Fixpoint writerows (fieldnames : list string) (rowdicts : list dict) : M unit :=
  match rowdicts with
  | [] => mret tt
  | rowdict :: rest =>
      writerow fieldnames rowdict;;
      writerows fieldnames rest
  end.
End Writer.

End Csv.

(** ** The script *)

Definition JSON_PATTERN : string := "*.json".
Definition EXCLUDE_DIRS : gset string := {[ ".git"; ".github"; ".venv"; "venv" ]}.

Definition CSV_HEADERS : list string :=
  [ "id"; "filename"; "url"; "label"; "namespaceUri"; "prefix"; "format";
    "comment"; "last_modified" ].

(** [len(records)] in an f-string *)
Definition decimal (n : nat) : string := NilEmpty.string_of_uint (Nat.to_uint n).

Section Indexer.
(** The platform, the repository root (the third parent of the script's own
    path), the file system at the time of the run, and Python's [str].
    [isoformat t] is [datetime.fromtimestamp(t).isoformat()] in the local
    time zone of the run: the text of the time, or the exception raised for
    a time out of range ([ValueError], [OverflowError] or [OSError]). *)
Context (fl : Flavour) (REPO_ROOT : Path) (fs : FileSystem).
Context (isoformat : Z -> result string) (py_str : value -> string).

Fixpoint any_excluded (path_parts : list string) : bool :=
  match path_parts with
  | [] => false
  | part :: rest =>
      if bool_decide (part ∈ EXCLUDE_DIRS) then true else any_excluded rest
  end.

Definition should_exclude_path (path : Path) : bool :=
  any_excluded (parts path).

Definition find_json_files (root : Path) : list Path :=
  let json_files :=
    fold_left (fun json_files json_file =>
                 if negb (should_exclude_path json_file)
                 then json_files ++ [json_file] else json_files)
              (rglob fl fs root JSON_PATTERN) [] in
  sorted fl json_files.

(** [except (json.JSONDecodeError, IOError)] *)
Definition caught (e : exn) : bool :=
  match e with
  | JSONDecodeError _ | OSError _ => true
  | _ => false
  end.

Definition extract_metadata (json_file : Path) : M (option dict) :=
  try_except
    (data ← lift (json_load fs json_file);
     relative_path ← lift (relative_to fl json_file REPO_ROOT);
     without_suffix ← lift (with_suffix relative_path "");
     let file_id := str fl without_suffix in
     mtime ← lift (stat_mtime fs json_file);
     mod_time ← lift (isoformat mtime);
     url ← lift (get data "url" (PStr ""));
     label ← lift (get data "label" (PStr ""));
     namespaceUri ← lift (get data "namespaceUri" (PStr ""));
     prefix ← lift (get data "prefix" (PStr ""));
     format ← lift (get data "format" (PStr ""));
     comment ← lift (get data "comment" (PStr ""));
     let metadata :=
       [ ("id", PStr file_id);
         ("filename", PStr (name json_file));
         ("url", url);
         ("label", label);
         ("namespaceUri", namespaceUri);
         ("prefix", prefix);
         ("format", format);
         ("comment", comment);
         ("last_modified", PStr mod_time) ] in
     mret (Some metadata))
    caught
    (fun e =>
       print ("Warning: Could not read " +:+ str fl json_file +:+ ": " +:+ str_exn e);;
       mret None).

(** The loop over the discovered files: a record is kept when
    [extract_metadata] returned a (non-empty) dictionary. *)
Fixpoint extract_each (json_files : list Path) (records : list dict) : M (list dict) :=
  match json_files with
  | [] => mret records
  | json_file :: rest =>
      metadata ← extract_metadata json_file;
      match metadata with
      | Some ((_ :: _) as md) => extract_each rest (records ++ [md])
      | _ => extract_each rest records
      end
  end.

(** The output directory is taken to exist or to be creatable and the
    output file to open for writing: failures of the environment are outside
    this model.  Every file is read before the output file is opened: [fs] is
    the file system as the run finds it. *)
Definition generate_index (output_file : Path) : M unit :=
  let json_files := find_json_files REPO_ROOT in
  match json_files with
  | [] => print "No JSON files found to index."
  | _ => mret tt
  end;;
  records ← extract_each json_files [];
  open_w;;
  Csv.writeheader py_str CSV_HEADERS;;
  Csv.writerows py_str CSV_HEADERS records;;
  print ("✓ Generated index with " +:+ decimal (length records)
         +:+ " vocabulary configuration(s)");;
  print ("✓ Index saved to: " +:+ str fl output_file).
End Indexer.

(** A fresh run: nothing printed, the output file not yet opened. *)
Definition initial : World := mkWorld [] None.

(** ** Notions used to state the properties *)

(** No two entries of a listing differ by case only.  On a POSIX platform
    this says nothing ([case_distinct_posix]); a Windows directory never
    holds two such names. *)
Definition case_distinct (fl : Flavour) (entries : list (list string * string)) : Prop :=
  forall e1 e2, e1 ∈ entries -> e2 ∈ entries ->
    map (normcase fl) (fst e1 ++ [snd e1]) = map (normcase fl) (fst e2 ++ [snd e2]) ->
    e1 = e2.

(** A text in ASCII. *)
Fixpoint ascii_only (s : string) : bool :=
  match s with
  | EmptyString => true
  | String a rest => (nat_of_ascii a <? 128)%nat && ascii_only rest
  end.

(** On Windows, the names of a listing are in ASCII (where [lower] is
    [str.lower()]); on a POSIX platform this says nothing. *)
Definition ascii_names (fl : Flavour) (entries : list (list string * string)) : Prop :=
  match fl with
  | Posix => True
  | Windows =>
      forall e, e ∈ entries -> Forall (fun nm => ascii_only nm = true) (fst e ++ [snd e])
  end.

(** The names the script excludes, one by one. *)
Definition excluded_name (d : string) : Prop :=
  d = ".git" \/ d = ".github" \/ d = ".venv" \/ d = "venv".

#[global] Instance excluded_name_dec d : Decision (excluded_name d).
Proof. unfold excluded_name. solve_decision. Defined.

(** The fields a vocabulary description may give. *)
Definition optional_fields : list string :=
  [ "url"; "label"; "namespaceUri"; "prefix"; "format"; "comment" ].

(** The header record of the index, as written. *)
Definition header_line : string :=
  "id,filename,url,label,namespaceUri,prefix,format,comment,last_modified"
  +:+ Csv.lineterminator.

(** The cells of the record of [md], column by column. *)
Definition row_cells (py_str : value -> string) (md : dict) : list string :=
  map (Csv.cell py_str)
    [ dict_get md "id" (PStr ""); dict_get md "filename" (PStr "");
      dict_get md "url" (PStr ""); dict_get md "label" (PStr "");
      dict_get md "namespaceUri" (PStr ""); dict_get md "prefix" (PStr "");
      dict_get md "format" (PStr ""); dict_get md "comment" (PStr "");
      dict_get md "last_modified" (PStr "") ].

(** The text of an index: the header, then one record for each of
    [records]. *)
Definition index_text (py_str : value -> string) (records : list dict) : string :=
  header_line
  +:+ foldr String.append "" (map (fun md => Csv.format_row (row_cells py_str md)) records).

(** The line of a record can be encoded: none of it is a lone surrogate. *)
Definition writable (py_str : value -> string) (md : dict) : bool :=
  negb (has_surrogate (Csv.format_row (row_cells py_str md))).

(** The records written before the first one that cannot be encoded. *)
Fixpoint writable_prefix (py_str : value -> string) (records : list dict) : list dict :=
  match records with
  | [] => []
  | md :: rest => if writable py_str md then md :: writable_prefix py_str rest else []
  end.

(** Two file systems hold the same contents: every path holds a file in
    both or in neither, with the same content; the modification times may
    differ. *)
Definition same_contents (fs1 fs2 : FileSystem) : Prop :=
  forall p, content <$> file_at fs1 p = content <$> file_at fs2 p.

(** Two file systems with the same modification times as well. *)
Definition same_files (fs1 fs2 : FileSystem) : Prop :=
  forall p, file_at fs1 p = file_at fs2 p.

(** Every modification time of the file system can be rendered, as a text
    without surrogates (the text of a time is in ASCII). *)
Definition renderable (isoformat : Z -> result string) (fs : FileSystem) : Prop :=
  forall p f, file_at fs p = Some f ->
    exists t, isoformat (st_mtime f) = Ok t /\ has_surrogate t = false.

(** Two records that agree on every field but [last_modified], which is the
    text of a time in both, and the same text when [Q] holds. *)
Definition agree_but_mtime (Q : Prop) (md1 md2 : dict) : Prop :=
  exists common t1 t2,
    md1 = common ++ [("last_modified", PStr t1)]
    /\ md2 = common ++ [("last_modified", PStr t2)]
    /\ dict_keys common = removelast CSV_HEADERS
    /\ has_surrogate t1 = false /\ has_surrogate t2 = false
    /\ (Q -> t1 = t2).

(** Two runs end alike: both raise the same exception, or both return,
    with values related by [R]. *)
Definition related_results {A} (R : A -> A -> Prop) (r1 r2 : result A) : Prop :=
  match r1, r2 with
  | Ok a, Ok b => R a b
  | Raise e1, Raise e2 => e1 = e2
  | _, _ => False
  end.

Definition related_metadata (Q : Prop) (m1 m2 : option dict) : Prop :=
  match m1, m2 with
  | Some md1, Some md2 => agree_but_mtime Q md1 md2
  | None, None => True
  | _, _ => False
  end.

(** The world once the notice for an empty discovery has been printed. *)
Definition after_notice (json_files : list Path) (w : World) : World :=
  match json_files with
  | [] => mkWorld (stdout w ++ ["No JSON files found to index."]) (outfile w)
  | _ => w
  end.

(** The two lines that close a run. *)
Definition summary (fl : Flavour) (records : list dict) (output_file : Path) : list string :=
  [ "✓ Generated index with " +:+ decimal (length records) +:+ " vocabulary configuration(s)";
    "✓ Index saved to: " +:+ str fl output_file ].

(** The world after some more lines have been printed. *)
Definition emit (w : World) (lines : list string) : World :=
  mkWorld (stdout w ++ lines) (outfile w).

(** The line [extract_metadata] prints for a file it skips. *)
Definition warning_line (fl : Flavour) (path : Path) (e : exn) : string :=
  "Warning: Could not read " +:+ str fl path +:+ ": " +:+ str_exn e.

(** The separator of the platform, as a character. *)
Definition sep_char (fl : Flavour) : ascii :=
  match fl with Posix => "/" | Windows => "\" end.

Section Collected.
Context (fl : Flavour) (REPO_ROOT : Path) (fs : FileSystem).
Context (isoformat : Z -> result string).

(** What [extract_metadata] returns for a path, in a fresh world. *)
Definition outcome (path : Path) : result (option dict) :=
  fst (extract_metadata fl REPO_ROOT fs isoformat path initial).

(** The lines it prints for that path. *)
Definition lines_of (path : Path) : list string :=
  stdout (snd (extract_metadata fl REPO_ROOT fs isoformat path initial)).

(** The records [extract_metadata] returns for the paths of a list, in the
    order of the list. *)
Definition extracted (paths : list Path) : list dict :=
  omap (fun p => match outcome p with Ok md => md | Raise _ => None end) paths.

(** The lines it prints for them, in the order of the list. *)
Definition printed (paths : list Path) : list string :=
  concat (map lines_of paths).

(** [extract_metadata] raises on the path. *)
Definition raises (path : Path) : bool :=
  match outcome path with Raise _ => true | Ok _ => false end.
End Collected.

(** ** A sample repository

    Used to run the definitions on concrete inputs. *)

Module Sample.

Definition root : Path := mkPath "/" ["srv"; "vocabularies"].

(** A file table: what each path below a root holds. *)
Fixpoint lookup_file (root : Path) (table : list (list string * File)) (p : Path)
    : option File :=
  match table with
  | [] => None
  | (rel, f) :: rest =>
      if decide (joinpath root rel = p) then Some f else lookup_file root rest p
  end.

Definition dcterms : File :=
  mkFile 1700000000000000
    (Document (PDict [ ("label", PStr "Dublin Core"); ("prefix", PStr "dcterms") ])).

Definition foaf : File :=
  mkFile 1700000360000000 (Document (PDict [ ("label", PStr "FOAF") ])).

Definition table : list (list string * File) :=
  [ (["foaf"; "voc.json"], foaf);
    (["dcterms"; "voc.json"], dcterms);
    ([".git"; "config.json"], mkFile 1 (Document (PDict [])));
    (["tools"; "venv"; "lib"; "pkg.json"], mkFile 2 (Document (PDict [])));
    (["README.md"], mkFile 3 (Undecodable "not text")) ].

Definition listing : list (list string * string) :=
  [ (["foaf"], "voc.json"); (["dcterms"], "voc.json"); ([".git"], "config.json");
    (["tools"; "venv"; "lib"], "pkg.json"); ([], "README.md") ].

Definition fs : FileSystem := mkFS (fun _ => listing) (lookup_file root table).

(** The same tree, met in another order by the walk. *)
Definition fs_reordered : FileSystem :=
  mkFS (fun _ => rev listing) (lookup_file root table).

(** A repository with nothing to index. *)
Definition fs_empty : FileSystem := mkFS (fun _ => [([], "README.md")]) (fun _ => None).

(** The same repository checked out on a Windows machine. *)
Definition windows_root : Path := mkPath "C:\" ["vocabularies"].
Definition windows_fs : FileSystem :=
  mkFS (fun _ => listing) (lookup_file windows_root table).

(** A repository checked out below a directory named [venv]. *)
Definition nested_root : Path := mkPath "/" ["home"; "venv"; "vocabularies"].
Definition nested_fs : FileSystem :=
  mkFS (fun _ => listing) (lookup_file nested_root table).

(** Two directories whose names differ from the hyphen on. *)
Definition fs_hyphen : FileSystem :=
  mkFS (fun _ => [(["a-b"], "c.json"); (["a"], "b.json")])
       (lookup_file root [ (["a-b"; "c.json"], foaf); (["a"; "b.json"], dcterms) ]).

(** Files of other shapes: a field that is a number, a document that is a
    list, a description saved in Latin-1, a file that is not JSON, an entry
    of the listing that cannot be opened, an object with none of the fields
    the index reads, and a document that is a number. *)
Definition odd_table : list (list string * File) :=
  [ (["skos"; "voc.json"], mkFile 4 (Document (PDict [ ("url", PInt 5) ])));
    (["terms.json"], mkFile 5 (Document (PList [])));
    (["latin1.json"],
      mkFile 6 (Undecodable "'utf-8' codec can't decode byte 0xe9 in position 11: invalid continuation byte"));
    (["draft.json"], mkFile 7 (Malformed "Expecting value: line 1 column 1 (char 0)"));
    (["cache.json"], mkFile 8 (Unreadable "[Errno 21] Is a directory"));
    (["void"; "voc.json"], mkFile 9 (Document (PDict [ ("title", PStr "VoID") ])));
    (["version.json"], mkFile 10 (Document (PInt 42))) ].

Definition fs_number : FileSystem :=
  mkFS (fun _ => [(["skos"], "voc.json")]) (lookup_file root odd_table).
Definition fs_list : FileSystem :=
  mkFS (fun _ => [([], "terms.json")]) (lookup_file root odd_table).
Definition fs_latin1 : FileSystem :=
  mkFS (fun _ => [(["foaf"], "voc.json"); ([], "latin1.json")])
       (lookup_file root (odd_table ++ table)).
Definition fs_bare : FileSystem :=
  mkFS (fun _ => [(["void"], "voc.json")]) (lookup_file root odd_table).
Definition fs_scalar : FileSystem :=
  mkFS (fun _ => [([], "version.json")]) (lookup_file root odd_table).
Definition fs_drafts : FileSystem :=
  mkFS (fun _ => [([], "draft.json"); ([], "cache.json"); (["foaf"], "voc.json")])
       (lookup_file root (odd_table ++ table)).

(** The sample repository after every file has been touched, met in another
    order by the walk. *)
Definition touched_table : list (list string * File) :=
  [ (["foaf"; "voc.json"], mkFile 1700000000000000 (content foaf));
    (["dcterms"; "voc.json"], mkFile 1700000360000000 (content dcterms));
    ([".git"; "config.json"], mkFile 11 (Document (PDict [])));
    (["tools"; "venv"; "lib"; "pkg.json"], mkFile 12 (Document (PDict [])));
    (["README.md"], mkFile 13 (Undecodable "not text")) ].
Definition fs_touched : FileSystem :=
  mkFS (fun _ => rev listing) (lookup_file root touched_table).

(** The sample repository after [foaf/voc.json] has been given a
    modification time in the year 10000. *)
Definition future_table : list (list string * File) :=
  [ (["foaf"; "voc.json"], mkFile 253402300800000000 (content foaf));
    (["dcterms"; "voc.json"], dcterms);
    ([".git"; "config.json"], mkFile 1 (Document (PDict [])));
    (["tools"; "venv"; "lib"; "pkg.json"], mkFile 2 (Document (PDict [])));
    (["README.md"], mkFile 3 (Undecodable "not text")) ].
Definition fs_future : FileSystem := mkFS (fun _ => listing) (lookup_file root future_table).

(** A description whose label holds a lone surrogate (the JSON text
    ["\ud800"]), after one that is plain. *)
Definition surrogate : string := String "237" (String "160" (String "128" EmptyString)).
Definition fs_surrogate : FileSystem :=
  mkFS (fun _ => [(["foaf"], "voc.json"); (["odd"], "voc.json")])
       (lookup_file root
          [ (["foaf"; "voc.json"], foaf);
            (["odd"; "voc.json"],
              mkFile 1700000360000000 (Document (PDict [ ("label", PStr surrogate) ]))) ]).


(** A directory with a description named [.json] and one named
    [.json.json]. *)
Definition fs_dotfiles : FileSystem :=
  mkFS (fun _ => [(["skos"], ".json"); (["skos"], ".json.json")])
       (lookup_file root [ (["skos"; ".json"], foaf); (["skos"; ".json.json"], dcterms) ]).

(** A clock that knows two instants, in the time zone of Lisbon; a time
    from the year 10000 on is out of the range of [datetime]. *)
Definition isoformat (t : Z) : result string :=
  if decide (253402300800000000 <= t)%Z
  then Raise (ValueError "year 10000 is out of range")
  else if decide (t = 1700000000000000%Z) then Ok "2023-11-14T22:13:20"
       else Ok "2023-11-14T22:19:20".

(** The same clock in the time zone of Brussels. *)
Definition isoformat_brussels (t : Z) : result string :=
  if decide (253402300800000000 <= t)%Z
  then Raise (ValueError "year 10000 is out of range")
  else if decide (t = 1700000000000000%Z) then Ok "2023-11-14T23:13:20"
       else Ok "2023-11-14T23:19:20".

Definition py_str (v : value) : string :=
  match v with
  | PInt 5%Z => "5"
  | PBool true => "True"
  | PBool false => "False"
  | _ => "[]"
  end.

Definition output_file : Path := mkPath "" ["vocabulary_index.csv"].

End Sample.

(** * Properties *)

(** ** The order on strings and on paths *)

Lemma string_compare_eq (s t : string) : String.compare s t = Eq <-> s = t.
Proof.
  split; [apply String.compare_eq_iff | intros <-].
  induction s as [|a s IH]; simpl; [done|].
  unfold Ascii.compare. by rewrite N.compare_refl.
Qed.

Lemma string_compare_opp (s t : string) :
  String.compare t s = CompOpp (String.compare s t).
Proof. apply String.compare_antisym. Qed.

Lemma ascii_compare_trans (a b c : ascii) (o : comparison) :
  Ascii.compare a b = o -> Ascii.compare b c = o -> Ascii.compare a c = o.
Proof.
  unfold Ascii.compare. destruct o; intros H1 H2.
  - apply N.compare_eq_iff in H1, H2. apply N.compare_eq_iff. congruence.
  - apply N.compare_lt_iff in H1, H2. apply N.compare_lt_iff.
    by etrans.
  - apply N.compare_gt_iff in H1, H2. apply N.compare_gt_iff.
    by etrans.
Qed.

Lemma string_compare_trans (s t u : string) (o : comparison) :
  String.compare s t = o -> String.compare t u = o -> String.compare s u = o.
Proof.
  revert t u. induction s as [|a s IH]; intros [|b t] [|c u]; simpl; try congruence.
  destruct (Ascii.compare a b) eqn:Hab, (Ascii.compare b c) eqn:Hbc;
    try (intros <- ?; congruence);
    try (apply Ascii.compare_eq_iff in Hab; subst b; rewrite Hbc; congruence);
    try (apply Ascii.compare_eq_iff in Hbc; subst c; rewrite Hab; congruence).
  - apply Ascii.compare_eq_iff in Hab, Hbc. subst.
    replace (Ascii.compare c c) with Eq
      by (unfold Ascii.compare; by rewrite N.compare_refl).
    apply IH.
  - by rewrite (ascii_compare_trans _ _ _ _ Hab Hbc).
  - by rewrite (ascii_compare_trans _ _ _ _ Hab Hbc).
Qed.

Lemma key_compare_eq (k1 k2 : list string) :
  list_compare String.compare k1 k2 = Eq <-> k1 = k2.
Proof. apply list_compare_refl, string_compare_eq. Qed.

Lemma key_compare_opp (k1 k2 : list string) :
  list_compare String.compare k2 k1 = CompOpp (list_compare String.compare k1 k2).
Proof. apply list_compare_antisym; [apply string_compare_eq | apply string_compare_opp]. Qed.

Lemma key_compare_lt_trans (k1 k2 k3 : list string) :
  list_compare String.compare k1 k2 = Lt ->
  list_compare String.compare k2 k3 = Lt ->
  list_compare String.compare k1 k3 = Lt.
Proof.
  apply list_compare_trans;
    [apply string_compare_eq | apply string_compare_trans | apply string_compare_opp].
Qed.

Section PathOrder.
Context (fl : Flavour).

Lemma path_le_compare (p q : Path) :
  path_le fl p q <->
  list_compare String.compare (sort_key fl p) (sort_key fl q) <> Gt.
Proof.
  unfold path_le, path_lt. rewrite key_compare_opp.
  destruct (list_compare _ (sort_key fl p) _); simpl; split; congruence.
Qed.

#[global] Instance path_le_total : Total (path_le fl).
Proof.
  intros p q. rewrite !path_le_compare, (key_compare_opp (sort_key fl p)).
  destruct (list_compare _ (sort_key fl p) _); simpl; auto.
Qed.

#[global] Instance path_le_trans : Transitive (path_le fl).
Proof.
  intros p q r. rewrite !path_le_compare. intros Hpq Hqr.
  destruct (list_compare String.compare (sort_key fl p) (sort_key fl q)) eqn:E1;
    [| |done].
  - apply key_compare_eq in E1. by rewrite E1.
  - destruct (list_compare String.compare (sort_key fl q) (sort_key fl r)) eqn:E2;
      [| |done].
    + apply key_compare_eq in E2. by rewrite <- E2, E1.
    + by rewrite (key_compare_lt_trans _ _ _ E1 E2).
Qed.

(** Two paths that [sorted] may put in either order have the same key. *)
Lemma path_le_antisym_key (p q : Path) :
  path_le fl p q -> path_le fl q p -> sort_key fl p = sort_key fl q.
Proof.
  rewrite !path_le_compare, (key_compare_opp (sort_key fl p)).
  destruct (list_compare _ (sort_key fl p) _) eqn:E; simpl; try done.
  intros _ _. by apply key_compare_eq.
Qed.

Lemma sorted_StronglySorted (l : list Path) : StronglySorted (path_le fl) (sorted fl l).
Proof. apply StronglySorted_merge_sort; apply _. Qed.

Lemma sorted_Permutation (l : list Path) : sorted fl l ≡ₚ l.
Proof. apply merge_sort_Permutation. Qed.
End PathOrder.

(** ** Discovery: [should_exclude_path] and [find_json_files] *)

Lemma case_distinct_posix (entries : list (list string * string)) :
  case_distinct Posix entries.
Proof.
  intros [ds1 n1] [ds2 n2] _ _; simpl. rewrite !map_id.
  intros [-> ->]%app_inj_tail. done.
Qed.

Lemma elem_of_EXCLUDE_DIRS (d : string) : d ∈ EXCLUDE_DIRS <-> excluded_name d.
Proof.
  unfold EXCLUDE_DIRS, excluded_name.
  rewrite !elem_of_union, !elem_of_singleton. tauto.
Qed.

Lemma any_excluded_true (l : list string) :
  any_excluded l = true <-> exists d, d ∈ l /\ d ∈ EXCLUDE_DIRS.
Proof.
  induction l as [|part rest IH]; simpl.
  - split; [done | intros (d & Hd & _); by apply elem_of_nil in Hd].
  - case_bool_decide as Hpart.
    + split; [intros _; exists part; split; [left | done] | done].
    + rewrite IH. split.
      * intros (d & Hd & Hex). exists d. split; [by right | done].
      * intros (d & Hd & Hex). apply elem_of_cons in Hd as [-> | Hd]; [done|].
        by exists d.
Qed.

(** The loop that appends the paths it keeps is a filter. *)
Lemma append_kept_filter (P : Path -> bool) (l acc : list Path) :
  fold_left (fun json_files json_file =>
               if negb (P json_file) then json_files ++ [json_file] else json_files) l acc
  = acc ++ filter (fun p => P p = false) l.
Proof.
  revert acc. induction l as [|p l IH]; intros acc; simpl.
  - by rewrite app_nil_r.
  - rewrite IH. destruct (P p) eqn:HP; simpl.
    + rewrite filter_cons_False by congruence. done.
    + rewrite filter_cons_True by done. by rewrite <- app_assoc.
Qed.

Lemma find_json_files_filter fl fs root :
  find_json_files fl fs root
  = sorted fl (filter (fun p => should_exclude_path p = false) (rglob fl fs root JSON_PATTERN)).
Proof. unfold find_json_files. by rewrite append_kept_filter. Qed.

Lemma elem_of_rglob fl fs root pattern (p : Path) :
  p ∈ rglob fl fs root pattern <->
  exists ds nm, (ds, nm) ∈ walk fs root /\ fnmatch fl nm pattern = true
                /\ p = joinpath root (ds ++ [nm]).
Proof.
  unfold rglob. rewrite list_elem_of_omap. split.
  - intros ([ds nm] & Hin & Hsome); simpl in Hsome.
    destruct (fnmatch fl nm pattern) eqn:Hm; [|done].
    exists ds, nm. by simplify_eq.
  - intros (ds & nm & Hin & Hm & ->). exists (ds, nm); simpl. by rewrite Hm.
Qed.

Lemma elem_of_find_json_files fl fs root (p : Path) :
  p ∈ find_json_files fl fs root <->
  should_exclude_path p = false /\ p ∈ rglob fl fs root JSON_PATTERN.
Proof.
  rewrite find_json_files_filter, (sorted_Permutation fl), list_elem_of_filter. done.
Qed.

(** C3. A path that has [.git], [.github], [.venv] or [venv] among its
    components, at whatever depth, is never in the result of
    [find_json_files]. *)
Theorem excluded_component_never_found fl fs root (p : Path) (d : string) :
  excluded_name d -> d ∈ parts p -> p ∉ find_json_files fl fs root.
Proof.
  intros Hd Hin [Hkeep _]%elem_of_find_json_files.
  assert (should_exclude_path p = true) as Hex; [|congruence].
  apply any_excluded_true. exists d. by rewrite elem_of_EXCLUDE_DIRS.
Qed.

Lemma excluded_component_never_found_witness :
  joinpath Sample.root ["tools"; "venv"; "lib"; "pkg.json"]
    ∉ find_json_files Posix Sample.fs Sample.root.
Proof.
  apply (excluded_component_never_found Posix Sample.fs Sample.root _ "venv").
  - right; right; right; reflexivity.
  - refine (bool_decide_unpack _ _). vm_compute. exact I.
Defined.

Lemma parts_joinpath (root : Path) (rel : list string) :
  parts (joinpath root rel) = parts root ++ rel.
Proof. unfold parts, joinpath; simpl. by case_decide. Qed.

Lemma rglob_Permutation fl fs fs' root pattern :
  walk fs' root ≡ₚ walk fs root ->
  rglob fl fs' root pattern ≡ₚ rglob fl fs root pattern.
Proof. unfold rglob. by intros ->. Qed.

(** Among the paths found below one root, the sort key tells the entries
    apart as soon as their names differ by more than case. *)
Lemma sort_key_joinpath_inj fl root (e1 e2 : list string * string)
    (entries : list (list string * string)) :
  case_distinct fl entries -> e1 ∈ entries -> e2 ∈ entries ->
  sort_key fl (joinpath root (fst e1 ++ [snd e1]))
  = sort_key fl (joinpath root (fst e2 ++ [snd e2])) ->
  e1 = e2.
Proof.
  intros Hcd H1 H2. unfold sort_key.
  rewrite !parts_joinpath, !(map_app _ (parts root)).
  intros Heq%app_inv_head. by apply Hcd.
Qed.

(** The order in which the walk meets the entries does not show in the
    result. *)
Lemma find_json_files_walk_order fl fs fs' root :
  walk fs' root ≡ₚ walk fs root ->
  case_distinct fl (walk fs root) ->
  find_json_files fl fs' root = find_json_files fl fs root.
Proof.
  intros Hperm Hcd. rewrite !find_json_files_filter.
  apply (StronglySorted_unique_strong (path_le fl)); try apply sorted_StronglySorted.
  - intros p q Hp Hq Hpq Hqp.
    rewrite (sorted_Permutation fl), list_elem_of_filter, elem_of_rglob in Hp, Hq.
    destruct Hp as (_ & ds1 & n1 & Hin1 & _ & ->).
    destruct Hq as (_ & ds2 & n2 & Hin2 & _ & ->).
    rewrite Hperm in Hin1.
    pose proof (path_le_antisym_key fl _ _ Hpq Hqp) as Hkey.
    pose proof (sort_key_joinpath_inj fl root (ds1, n1) (ds2, n2) _ Hcd Hin1 Hin2 Hkey).
    by simplify_eq.
  - rewrite !(sorted_Permutation fl). by rewrite (rglob_Permutation fl fs fs').
Qed.

(** The order is on the parts, not on the text of the path: [a/b.json] comes
    before [a-b/c.json], although the hyphen sorts before the slash. *)
Example sorted_by_parts :
  sorted Posix [ mkPath "" ["a-b"; "c.json"]; mkPath "" ["a"; "b.json"] ]
  = [ mkPath "" ["a"; "b.json"]; mkPath "" ["a-b"; "c.json"] ]
  /\ String.ltb "a-b/c.json" "a/b.json" = true.
Proof. split; vm_compute; reflexivity. Qed.

Lemma fnmatch_json fl (nm : string) :
  fnmatch fl nm JSON_PATTERN = endswith (normcase fl nm) ".json".
Proof. by destruct fl. Qed.

Lemma fnmatch_json_nonempty fl (nm : string) :
  fnmatch fl nm JSON_PATTERN = true -> nm <> "".
Proof. intros Hm ->. by destruct fl. Qed.

Lemma should_exclude_path_false (p : Path) :
  should_exclude_path p = false <-> Forall (fun part => ~ excluded_name part) (parts p).
Proof.
  unfold should_exclude_path. rewrite Forall_forall. split.
  - intros Hkeep part Hin Hex.
    assert (any_excluded (parts p) = true) as Hany; [|congruence].
    apply any_excluded_true. exists part. by rewrite elem_of_EXCLUDE_DIRS.
  - intros Hnone. destruct (any_excluded (parts p)) eqn:Hany; [|done].
    apply any_excluded_true in Hany as (d & Hin & Hex%elem_of_EXCLUDE_DIRS).
    by destruct (Hnone d Hin).
Qed.

(** The paths kept are those of the entries of the walk whose name ends in
    [.json] and none of whose parts is excluded, one for one. *)
Lemma kept_of_walk fl root (entries : list (list string * string)) :
  filter (fun p => should_exclude_path p = false)
    (omap (fun e => if fnmatch fl (snd e) JSON_PATTERN
                    then Some (joinpath root (fst e ++ [snd e])) else None) entries)
  = (fun e => joinpath root (fst e ++ [snd e]))
      <$> filter (fun e => endswith (normcase fl (snd e)) ".json" = true
                           /\ Forall (fun part => ~ excluded_name part)
                                (parts (joinpath root (fst e ++ [snd e]))))
                 entries.
Proof.
  induction entries as [|e entries IH]; [done|]. cbn [omap list_omap].
  rewrite fnmatch_json.
  destruct (endswith (normcase fl (snd e)) ".json") eqn:Hm; cbv beta iota.
  - destruct (should_exclude_path (joinpath root (fst e ++ [snd e]))) eqn:Hex.
    + rewrite filter_cons_False by congruence.
      rewrite filter_cons_False; [exact IH|].
      intros [_ Hkeep]. apply (proj2 (should_exclude_path_false _)) in Hkeep. congruence.
    + rewrite filter_cons_True by done.
      rewrite filter_cons_True by (split; [done | by apply should_exclude_path_false]).
      rewrite fmap_cons. f_equal. exact IH.
  - rewrite filter_cons_False by (intros [? _]; congruence). exact IH.
Qed.

(** C4, as stated, fails: the paths come in the order of their parts, which
    is not the order of their text; [a-b/c.json] is the smaller text and
    comes last. *)
Lemma find_json_files_text_order_counterexample :
  find_json_files Posix Sample.fs_hyphen Sample.root
  = [ joinpath Sample.root ["a"; "b.json"]; joinpath Sample.root ["a-b"; "c.json"] ]
  /\ String.ltb (str Posix (joinpath Sample.root ["a-b"; "c.json"]))
                (str Posix (joinpath Sample.root ["a"; "b.json"])) = true.
Proof. split; vm_compute; reflexivity. Qed.

(** C4, as amended.  [find_json_files] returns, one for one, the entries met
    below the root whose name ends in [.json] and none of whose parts is an
    excluded name, in ascending order of the tuples of their parts (each part
    by code point, after case folding on Windows); and walking the same tree
    again gives the same list, in whatever order the walk meets the
    entries. *)
Theorem find_json_files_sorted_deterministic fl fs root :
  ascii_names fl (walk fs root) ->
  StronglySorted (path_le fl) (find_json_files fl fs root)
  /\ find_json_files fl fs root
     ≡ₚ (fun e => joinpath root (fst e ++ [snd e]))
          <$> filter (fun e => endswith (normcase fl (snd e)) ".json" = true
                               /\ Forall (fun part => ~ excluded_name part)
                                    (parts (joinpath root (fst e ++ [snd e]))))
                     (walk fs root)
  /\ (forall fs', walk fs' root ≡ₚ walk fs root ->
                 case_distinct fl (walk fs root) ->
                 find_json_files fl fs' root = find_json_files fl fs root).
Proof.
  intros _.
  split; [rewrite find_json_files_filter; apply sorted_StronglySorted|].
  split.
  - rewrite find_json_files_filter, (sorted_Permutation fl). unfold rglob.
    by rewrite kept_of_walk.
  - intros fs'. apply find_json_files_walk_order.
Qed.

Lemma find_json_files_sorted_deterministic_witness :
  find_json_files Posix Sample.fs_reordered Sample.root
  = find_json_files Posix Sample.fs Sample.root.
Proof.
  apply (find_json_files_sorted_deterministic Posix Sample.fs Sample.root).
  - exact I.
  - simpl. symmetry. apply Permutation_rev.
  - apply case_distinct_posix.
Defined.

(** ** Strings, suffixes and relative paths *)

Lemma string_app_cons (c : ascii) (s t : string) : String c s +:+ t = String c (s +:+ t).
Proof. reflexivity. Qed.

Lemma string_app_nil_l (t : string) : "" +:+ t = t.
Proof. reflexivity. Qed.

Ltac str_simpl := rewrite ?string_app_cons, ?string_app_nil_l; simpl.

Lemma string_app_nil_r (s : string) : s +:+ "" = s.
Proof. induction s as [|c s IH]; str_simpl; [done | by rewrite IH]. Qed.

Lemma string_length_app (s t : string) :
  String.length (s +:+ t) = String.length s + String.length t.
Proof. induction s as [|c s IH]; str_simpl; [done | by rewrite IH]. Qed.

Lemma substring_0_length (s : string) : substring 0 (String.length s) s = s.
Proof. induction s as [|c s IH]; simpl; [done | by rewrite IH]. Qed.

Lemma substring_app_prefix (s t : string) : substring 0 (String.length s) (s +:+ t) = s.
Proof.
  induction s as [|c s IH]; str_simpl; [by destruct t | by rewrite IH].
Qed.

Lemma substring_app_skip (s t : string) (m : nat) :
  substring (String.length s) m (s +:+ t) = substring 0 m t.
Proof. induction s as [|c s IH]; str_simpl; done. Qed.

Lemma rfind_aux_absent (c : ascii) (s : string) (i found : Z) :
  contains c s = false -> rfind_aux c s i found = found.
Proof.
  revert i found. induction s as [|a s IH]; intros i found; simpl; [done|].
  intros [Ha Hs]%orb_false_iff. rewrite Ha. by apply IH.
Qed.

Lemma rfind_aux_app (c : ascii) (s t : string) (i found : Z) :
  rfind_aux c (s +:+ t) i found
  = rfind_aux c t (i + Z.of_nat (String.length s)) (rfind_aux c s i found).
Proof.
  revert i found. induction s as [|a s IH]; intros i found; str_simpl.
  - f_equal. lia.
  - rewrite IH. f_equal. lia.
Qed.

Lemma rfind_dot (base ext : string) :
  contains "." ext = false ->
  rfind "." (base +:+ "." +:+ ext) = Z.of_nat (String.length base).
Proof.
  intros Hext. unfold rfind. rewrite rfind_aux_app. str_simpl.
  by rewrite rfind_aux_absent.
Qed.

Lemma suffix_ext (base ext : string) :
  base <> "" -> ext <> "" -> contains "." ext = false ->
  suffix (base +:+ "." +:+ ext) = "." +:+ ext.
Proof.
  intros Hbase Hext Hdot. unfold suffix. rewrite rfind_dot by done.
  rewrite string_length_app. str_simpl.
  assert (0 < String.length base) by (destruct base; [done | simpl; lia]).
  assert (0 < String.length ext) by (destruct ext; [done | simpl; lia]).
  replace (0 <? Z.of_nat (String.length base))%Z with true
    by (symmetry; apply Z.ltb_lt; lia).
  replace (Z.of_nat (String.length base)
           <? Z.of_nat (String.length base + S (String.length ext)) - 1)%Z
    with true by (symmetry; apply Z.ltb_lt; lia).
  simpl andb. cbv iota. rewrite Nat2Z.id.
  replace (String.length base + S (String.length ext) - String.length base)
    with (S (String.length ext)) by lia.
  rewrite substring_app_skip. simpl. by rewrite substring_0_length.
Qed.

Lemma stem_ext (base ext : string) :
  base <> "" -> ext <> "" -> contains "." ext = false ->
  stem (base +:+ "." +:+ ext) = base.
Proof.
  intros Hbase Hext Hdot. unfold stem. rewrite suffix_ext by done.
  rewrite decide_False by done.
  rewrite string_length_app. str_simpl.
  replace (String.length base + S (String.length ext) - S (String.length ext))
    with (String.length base) by lia.
  apply substring_app_prefix.
Qed.

(** A name that is nothing but [.json] has no suffix to lose. *)
Example stem_dotfile : suffix ".json" = "" /\ stem ".json" = ".json".
Proof. split; reflexivity. Qed.

Lemma relative_to_joinpath fl (root : Path) (rel : list string) :
  relative_to fl (joinpath root rel) root = Ok (mkPath "" rel).
Proof.
  unfold relative_to, joinpath; simpl. rewrite decide_True.
  - by rewrite drop_app_length.
  - split; [done|]. rewrite map_app. by apply prefix_app_r.
Qed.

Lemma name_snoc (a : string) (ds : list string) (nm : string) :
  name (mkPath a (ds ++ [nm])) = nm.
Proof. unfold name; simpl. by rewrite last_snoc. Qed.

Lemma with_suffix_empty (a : string) (ds : list string) (nm : string) :
  nm <> "" ->
  with_suffix (mkPath a (ds ++ [nm])) "" = Ok (mkPath a (ds ++ [stem nm])).
Proof.
  intros Hnm. unfold with_suffix. rewrite name_snoc, decide_False by done.
  simpl. rewrite removelast_last. unfold stem.
  by rewrite !string_app_nil_r.
Qed.

Lemma str_relative fl (ds : list string) (nm : string) :
  str fl (mkPath "" (ds ++ [nm])) = String.concat (sep fl) (ds ++ [nm]).
Proof. unfold str; simpl. by destruct ds. Qed.

Lemma dict_get_absent (d : dict) (key : string) (default : value) :
  key ∉ dict_keys d -> dict_get d key default = default.
Proof.
  unfold dict_get, dict_keys. revert default.
  induction d as [|[k v] d IH]; intros default Hkey; simpl; [done|].
  rewrite fmap_cons, not_elem_of_cons in Hkey. destruct Hkey as [Hne Hkey].
  destruct (String.eqb_spec k key) as [->|_]; [done|]. by apply IH.
Qed.

(** ** Extraction: [extract_metadata] *)

Lemma name_joinpath (root : Path) (ds : list string) (nm : string) :
  name (joinpath root (ds ++ [nm])) = nm.
Proof. unfold joinpath. by rewrite app_assoc, name_snoc. Qed.

Section Extraction.
Context (fl : Flavour) (REPO_ROOT : Path) (fs : FileSystem).
Context (isoformat : Z -> result string).

Local Abbreviation extract := (extract_metadata fl REPO_ROOT fs isoformat).

(** The warning printed for a file that is skipped. *)
Local Abbreviation warning path msg :=
  ("Warning: Could not read " +:+ str fl path +:+ ": " +:+ msg).

(** A document that is a dictionary, in a file whose modification time can
    be rendered, gives a record. *)
Lemma extract_metadata_dict ds nm f d t w :
  file_at fs (joinpath REPO_ROOT (ds ++ [nm])) = Some f ->
  content f = Document (PDict d) ->
  isoformat (st_mtime f) = Ok t ->
  nm <> "" ->
  extract (joinpath REPO_ROOT (ds ++ [nm])) w
  = (Ok (Some [ ("id", PStr (String.concat (sep fl) (ds ++ [stem nm])));
                ("filename", PStr nm);
                ("url", dict_get d "url" (PStr ""));
                ("label", dict_get d "label" (PStr ""));
                ("namespaceUri", dict_get d "namespaceUri" (PStr ""));
                ("prefix", dict_get d "prefix" (PStr ""));
                ("format", dict_get d "format" (PStr ""));
                ("comment", dict_get d "comment" (PStr ""));
                ("last_modified", PStr t) ]), w).
Proof.
  intros Hfile Hdoc Htime Hnm.
  unfold extract_metadata, try_except, mbind, M_bind, Py.bind, lift,
    json_load, stat_mtime.
  rewrite Hfile, Hdoc, relative_to_joinpath, with_suffix_empty, Htime by done.
  by rewrite str_relative, name_joinpath.
Qed.

(** A modification time that cannot be rendered: the exception is caught and
    reported when it is an [OSError], and leaves otherwise. *)
Lemma extract_metadata_time_raises ds nm f data e w :
  file_at fs (joinpath REPO_ROOT (ds ++ [nm])) = Some f ->
  content f = Document data ->
  isoformat (st_mtime f) = Raise e ->
  nm <> "" ->
  extract (joinpath REPO_ROOT (ds ++ [nm])) w
  = if caught e
    then (Ok None, mkWorld (stdout w ++ [warning (joinpath REPO_ROOT (ds ++ [nm])) (str_exn e)])
                           (outfile w))
    else (Raise e, w).
Proof.
  intros Hfile Hdoc Htime Hnm.
  unfold extract_metadata, try_except, mbind, M_bind, Py.bind, lift,
    json_load, stat_mtime.
  rewrite Hfile, Hdoc, relative_to_joinpath, with_suffix_empty, Htime by done.
  by destruct (caught e).
Qed.

(** A document that is anything else has no [get]: the [AttributeError] is
    not one of the exceptions the script catches. *)
Lemma extract_metadata_not_dict ds nm f data t w :
  file_at fs (joinpath REPO_ROOT (ds ++ [nm])) = Some f ->
  content f = Document data ->
  isoformat (st_mtime f) = Ok t ->
  (forall d, data <> PDict d) ->
  nm <> "" ->
  extract (joinpath REPO_ROOT (ds ++ [nm])) w
  = (Raise (AttributeError "object has no attribute 'get'"), w).
Proof.
  intros Hfile Hdoc Htime Hdata Hnm.
  unfold extract_metadata, try_except, mbind, M_bind, Py.bind, lift,
    json_load, stat_mtime.
  rewrite Hfile, Hdoc, relative_to_joinpath, with_suffix_empty, Htime by done.
  destruct data; try done. by destruct (Hdata members).
Qed.

(** A file that cannot be opened, or is not there, or does not hold JSON,
    is skipped with a warning. *)
Lemma extract_metadata_missing path w :
  file_at fs path = None ->
  extract path w
  = (Ok None,
     mkWorld (stdout w ++ [warning path "[Errno 2] No such file or directory"])
             (outfile w)).
Proof.
  intros Hfile.
  unfold extract_metadata, try_except, mbind, M_bind, Py.bind, lift, json_load.
  by rewrite Hfile.
Qed.

Lemma extract_metadata_unreadable path f err w :
  file_at fs path = Some f ->
  content f = Unreadable err ->
  extract path w
  = (Ok None, mkWorld (stdout w ++ [warning path err]) (outfile w)).
Proof.
  intros Hfile Hc.
  unfold extract_metadata, try_except, mbind, M_bind, Py.bind, lift, json_load.
  by rewrite Hfile, Hc.
Qed.

Lemma extract_metadata_malformed path f err w :
  file_at fs path = Some f ->
  content f = Malformed err ->
  extract path w
  = (Ok None, mkWorld (stdout w ++ [warning path err]) (outfile w)).
Proof.
  intros Hfile Hc.
  unfold extract_metadata, try_except, mbind, M_bind, Py.bind, lift, json_load.
  by rewrite Hfile, Hc.
Qed.

(** A file whose bytes are not UTF-8 is not skipped: the
    [UnicodeDecodeError] leaves [extract_metadata]. *)
Lemma extract_metadata_undecodable path f err w :
  file_at fs path = Some f ->
  content f = Undecodable err ->
  extract path w = (Raise (UnicodeDecodeError err), w).
Proof.
  intros Hfile Hc.
  unfold extract_metadata, try_except, mbind, M_bind, Py.bind, lift, json_load.
  by rewrite Hfile, Hc.
Qed.
End Extraction.

(** C1, as amended.  For a file below the root whose document is a JSON
    object and whose modification time can be rendered, [extract_metadata]
    returns a record and prints nothing; each of [url], [label],
    [namespaceUri], [prefix], [format] and [comment] is what the object gives
    for it, whatever its shape, and the empty string when the object does not
    have it. *)
Theorem extract_metadata_object_fields fl REPO_ROOT fs isoformat
    (ds : list string) (nm : string) (f : File) (d : dict) (t : string) (w : World)
    (key : string) :
  file_at fs (joinpath REPO_ROOT (ds ++ [nm])) = Some f ->
  content f = Document (PDict d) ->
  isoformat (st_mtime f) = Ok t ->
  nm <> "" ->
  key ∈ optional_fields ->
  exists metadata,
    extract_metadata fl REPO_ROOT fs isoformat (joinpath REPO_ROOT (ds ++ [nm])) w
    = (Ok (Some metadata), w)
    /\ dict_get metadata key PNone = dict_get d key (PStr "")
    /\ (key ∉ dict_keys d -> dict_get metadata key PNone = PStr "").
Proof.
  intros Hfile Hdoc Htime Hnm Hkey.
  eexists. split; [by eapply extract_metadata_dict|].
  assert (forall v, v = dict_get d key (PStr "") ->
                    key ∉ dict_keys d -> v = PStr "") as Habsent.
  { intros v -> Hno. by apply dict_get_absent. }
  unfold optional_fields in Hkey.
  repeat (apply elem_of_cons in Hkey as [-> | Hkey]);
    [split; [reflexivity | by apply Habsent] ..|].
  by apply elem_of_nil in Hkey.
Qed.

Lemma extract_metadata_object_fields_witness :
  exists metadata,
    extract_metadata Posix Sample.root Sample.fs Sample.isoformat
      (joinpath Sample.root (["dcterms"] ++ ["voc.json"])) initial
    = (Ok (Some metadata), initial)
    /\ dict_get metadata "prefix" PNone
       = dict_get [ ("label", PStr "Dublin Core"); ("prefix", PStr "dcterms") ]
                  "prefix" (PStr "")
    /\ ("prefix" ∉ dict_keys [ ("label", PStr "Dublin Core"); ("prefix", PStr "dcterms") ]
        -> dict_get metadata "prefix" PNone = PStr "").
Proof.
  apply (extract_metadata_object_fields Posix Sample.root Sample.fs Sample.isoformat
           ["dcterms"] "voc.json" Sample.dcterms _ "2023-11-14T22:13:20").
  - reflexivity.
  - reflexivity.
  - reflexivity.
  - discriminate.
  - refine (bool_decide_unpack _ _). vm_compute. exact I.
Defined.

(** C1, as stated, fails twice: a field of another shape is kept as it is,
    not replaced by the empty string; and a document that is not an object
    makes [extract_metadata] raise. *)
Lemma extract_metadata_defaults_counterexample :
  (exists metadata,
     extract_metadata Posix Sample.root Sample.fs_number Sample.isoformat
       (joinpath Sample.root ["skos"; "voc.json"]) initial
     = (Ok (Some metadata), initial)
     /\ dict_get metadata "url" PNone = PInt 5
     /\ dict_get metadata "url" PNone <> PStr "")
  /\ extract_metadata Posix Sample.root Sample.fs_list Sample.isoformat
       (joinpath Sample.root ["terms.json"]) initial
     = (Raise (AttributeError "object has no attribute 'get'"), initial).
Proof.
  split; [eexists; split; [vm_compute; reflexivity | split; [reflexivity | discriminate]]|].
  vm_compute. reflexivity.
Qed.

(** C2, at a file saved in Latin-1: decoding it raises a
    [UnicodeDecodeError], which [extract_metadata] does not catch; the run
    stops there, with no warning printed and no index written. *)
Theorem latin1_file_aborts_run :
  extract_metadata Posix Sample.root Sample.fs_latin1 Sample.isoformat
    (joinpath Sample.root ["latin1.json"]) initial
  = (Raise (UnicodeDecodeError
              "'utf-8' codec can't decode byte 0xe9 in position 11: invalid continuation byte"),
     initial)
  /\ generate_index Posix Sample.root Sample.fs_latin1 Sample.isoformat Sample.py_str
       Sample.output_file initial
     = (Raise (UnicodeDecodeError
                 "'utf-8' codec can't decode byte 0xe9 in position 11: invalid continuation byte"),
        initial).
Proof. split; vm_compute; reflexivity. Qed.

(** A run over the sample repository: the two descriptions, in the order of
    their paths; the files below [.git] and [venv] are left out. *)
Example sample_index :
  generate_index Posix Sample.root Sample.fs Sample.isoformat Sample.py_str
    Sample.output_file initial
  = (Ok tt,
     mkWorld
       [ "✓ Generated index with 2 vocabulary configuration(s)";
         "✓ Index saved to: vocabulary_index.csv" ]
       (Some (header_line
              +:+ "dcterms/voc,voc.json,,Dublin Core,,dcterms,,,2023-11-14T22:13:20"
              +:+ Csv.lineterminator
              +:+ "foaf/voc,voc.json,,FOAF,,,,,2023-11-14T22:19:20"
              +:+ Csv.lineterminator))).
Proof. vm_compute. reflexivity. Qed.

(** The failures the script does catch: the file is skipped with a warning
    and the run goes on to the remaining files. *)
Example unreadable_files_are_skipped :
  generate_index Posix Sample.root Sample.fs_drafts Sample.isoformat Sample.py_str
    Sample.output_file initial
  = (Ok tt,
     mkWorld
       [ "Warning: Could not read /srv/vocabularies/cache.json: [Errno 21] Is a directory";
         "Warning: Could not read /srv/vocabularies/draft.json: Expecting value: line 1 column 1 (char 0)";
         "✓ Generated index with 1 vocabulary configuration(s)";
         "✓ Index saved to: vocabulary_index.csv" ]
       (Some (header_line
              +:+ "foaf/voc,voc.json,,FOAF,,,,,2023-11-14T22:19:20" +:+ Csv.lineterminator))).
Proof. vm_compute. reflexivity. Qed.

Lemma found_below_root fl fs root (p : Path) :
  p ∈ find_json_files fl fs root ->
  exists ds nm, p = joinpath root (ds ++ [nm]) /\ nm <> "".
Proof.
  intros [_ (ds & nm & _ & Hm & ->)%elem_of_rglob]%elem_of_find_json_files.
  exists ds, nm. split; [done | by apply (fnmatch_json_nonempty fl)].
Qed.

(** C5, as amended.  For every file found whose document is a JSON object
    (and whose modification time can be rendered), the [id] of the record is
    the path below the root, its last name without its suffix in the sense of
    [pathlib], joined by the separator of the platform: a slash on POSIX, a
    backslash on Windows.  The suffix of [base.ext] is [.ext]; a name that is
    [.json] and nothing else has none and is kept whole ([stem_dotfile]). *)
Theorem file_id_platform_separator fl REPO_ROOT fs isoformat
    (p : Path) (f : File) (d : dict) (t : string) (w : World) :
  p ∈ find_json_files fl fs REPO_ROOT ->
  file_at fs p = Some f ->
  content f = Document (PDict d) ->
  isoformat (st_mtime f) = Ok t ->
  exists ds nm metadata,
    p = joinpath REPO_ROOT (ds ++ [nm])
    /\ extract_metadata fl REPO_ROOT fs isoformat p w = (Ok (Some metadata), w)
    /\ dict_get metadata "id" PNone
       = PStr (String.concat (match fl with Posix => "/" | Windows => "\" end)
                             (ds ++ [stem nm]))
    /\ (forall base ext,
          nm = base +:+ "." +:+ ext -> base <> "" -> ext <> "" ->
          contains "." ext = false -> stem nm = base).
Proof.
  intros (ds & nm & -> & Hnm)%found_below_root Hfile Hdoc Htime.
  exists ds, nm. eexists. split; [done|].
  split; [by eapply extract_metadata_dict|].
  split; [by destruct fl|].
  intros base ext -> Hbase Hext Hdot. by apply stem_ext.
Qed.

Lemma file_id_platform_separator_witness :
  exists ds nm metadata,
    joinpath Sample.root ["dcterms"; "voc.json"] = joinpath Sample.root (ds ++ [nm])
    /\ extract_metadata Posix Sample.root Sample.fs Sample.isoformat
         (joinpath Sample.root ["dcterms"; "voc.json"]) initial
       = (Ok (Some metadata), initial)
    /\ dict_get metadata "id" PNone = PStr (String.concat "/" (ds ++ [stem nm]))
    /\ (forall base ext,
          nm = base +:+ "." +:+ ext -> base <> "" -> ext <> "" ->
          contains "." ext = false -> stem nm = base).
Proof.
  apply (file_id_platform_separator Posix Sample.root Sample.fs Sample.isoformat
           (joinpath Sample.root ["dcterms"; "voc.json"]) Sample.dcterms
           [ ("label", PStr "Dublin Core"); ("prefix", PStr "dcterms") ]
           "2023-11-14T22:13:20").
  - refine (bool_decide_unpack _ _). vm_compute. exact I.
  - reflexivity.
  - reflexivity.
  - reflexivity.
Defined.

(** C5, as stated, fails on Windows: the [id] of a discovered file is
    written with backslashes. *)
Lemma file_id_forward_slash_counterexample :
  joinpath Sample.windows_root ["dcterms"; "voc.json"]
    ∈ find_json_files Windows Sample.windows_fs Sample.windows_root
  /\ exists metadata,
       extract_metadata Windows Sample.windows_root Sample.windows_fs Sample.isoformat
         (joinpath Sample.windows_root ["dcterms"; "voc.json"]) initial
       = (Ok (Some metadata), initial)
       /\ dict_get metadata "id" PNone = PStr "dcterms\voc"
       /\ dict_get metadata "id" PNone <> PStr "dcterms/voc".
Proof.
  split; [refine (bool_decide_unpack _ _); vm_compute; exact I|].
  eexists. split; [vm_compute; reflexivity | split; [reflexivity | discriminate]].
Qed.

(** C6, as amended.  A file below the root whose document is a JSON object
    with none of the six fields, and whose modification time can be rendered,
    gives a record whose six fields are empty
    strings, whose [id] is the path below the root without
    the extension, whose [filename] is the name of the file and whose
    [last_modified] is the ISO form of the modification time the file system
    gives at that moment. *)
Theorem extract_metadata_without_optional_fields fl REPO_ROOT fs isoformat
    (ds : list string) (nm : string) (f : File) (d : dict) (t : string) (w : World) :
  file_at fs (joinpath REPO_ROOT (ds ++ [nm])) = Some f ->
  content f = Document (PDict d) ->
  isoformat (st_mtime f) = Ok t ->
  nm <> "" ->
  (forall key, key ∈ optional_fields -> key ∉ dict_keys d) ->
  extract_metadata fl REPO_ROOT fs isoformat (joinpath REPO_ROOT (ds ++ [nm])) w
  = (Ok (Some [ ("id", PStr (String.concat (sep fl) (ds ++ [stem nm])));
                ("filename", PStr nm);
                ("url", PStr "");
                ("label", PStr "");
                ("namespaceUri", PStr "");
                ("prefix", PStr "");
                ("format", PStr "");
                ("comment", PStr "");
                ("last_modified", PStr t) ]), w).
Proof.
  intros Hfile Hdoc Htime Hnm Hnone.
  rewrite (extract_metadata_dict _ _ _ _ _ _ _ d t w Hfile Hdoc Htime Hnm).
  rewrite !dict_get_absent; [done | apply Hnone; unfold optional_fields ..];
    refine (bool_decide_unpack _ _); vm_compute; exact I.
Qed.

Lemma extract_metadata_without_optional_fields_witness :
  extract_metadata Posix Sample.root Sample.fs_bare Sample.isoformat
    (joinpath Sample.root (["void"] ++ ["voc.json"])) initial
  = (Ok (Some [ ("id", PStr (String.concat (sep Posix) (["void"] ++ [stem "voc.json"])));
                ("filename", PStr "voc.json");
                ("url", PStr "");
                ("label", PStr "");
                ("namespaceUri", PStr "");
                ("prefix", PStr "");
                ("format", PStr "");
                ("comment", PStr "");
                ("last_modified", PStr "2023-11-14T22:19:20") ]),
     initial).
Proof.
  apply (extract_metadata_without_optional_fields Posix Sample.root Sample.fs_bare
           Sample.isoformat ["void"] "voc.json"
           (mkFile 9 (Document (PDict [ ("title", PStr "VoID") ])))
           [ ("title", PStr "VoID") ] "2023-11-14T22:19:20").
  - reflexivity.
  - reflexivity.
  - reflexivity.
  - discriminate.
  - intros key Hkey. unfold optional_fields in Hkey.
    repeat (apply elem_of_cons in Hkey as [-> | Hkey]);
      try (refine (bool_decide_unpack _ _); vm_compute; exact I).
    by apply elem_of_nil in Hkey.
Defined.

(** C6, as stated, fails at a file that parses and has none of the six
    fields because its document is a number: there is no record, the
    [AttributeError] leaves [extract_metadata]. *)
Lemma extract_metadata_scalar_counterexample :
  joinpath Sample.root ["version.json"]
    ∈ find_json_files Posix Sample.fs_scalar Sample.root
  /\ json_load Sample.fs_scalar (joinpath Sample.root ["version.json"]) = Ok (PInt 42)
  /\ extract_metadata Posix Sample.root Sample.fs_scalar Sample.isoformat
       (joinpath Sample.root ["version.json"]) initial
     = (Raise (AttributeError "object has no attribute 'get'"), initial).
Proof.
  split; [refine (bool_decide_unpack _ _); vm_compute; exact I|].
  split; vm_compute; reflexivity.
Qed.


(** ** Texts that can be encoded *)

Lemma has_surrogate_app (s t : string) :
  has_surrogate (s +:+ t)
  = has_surrogate s || has_surrogate t || (ends_lead s && starts_trail t).
Proof.
  induction s as [|a s IH]; str_simpl.
  - by rewrite orb_false_r.
  - cbn [has_surrogate]. rewrite IH. destruct s as [|b s].
    + rewrite string_app_nil_l. cbn [has_surrogate ends_lead].
      destruct (Ascii.eqb a "237"), (starts_trail t), (has_surrogate t); done.
    + rewrite string_app_cons.
      change (ends_lead (String a (String b s))) with (ends_lead (String b s)).
      change (starts_trail (String b (s +:+ t))) with (starts_trail (String b s)).
      generalize (has_surrogate (String b s)) (ends_lead (String b s) && starts_trail t)
        (Ascii.eqb a "237" && starts_trail (String b s)) (has_surrogate t).
      by intros [] [] [] [].
Qed.

Lemma has_surrogate_plain_cons (c : ascii) (t : string) :
  plain c -> has_surrogate (String c t) = has_surrogate t.
Proof. intros [Hc _]. simpl. by rewrite Hc. Qed.

Lemma has_surrogate_app_plain (s : string) (c : ascii) (t : string) :
  plain c -> has_surrogate (s +:+ String c t) = has_surrogate s || has_surrogate t.
Proof.
  intros Hc. rewrite has_surrogate_app, has_surrogate_plain_cons by done.
  destruct Hc as [_ Hc]. simpl in *. by rewrite Hc, andb_false_r, orb_false_r.
Qed.

Lemma plain_delimiter : plain Csv.delimiter.
Proof. by split. Qed.
Lemma plain_quotechar : plain Csv.quotechar.
Proof. by split. Qed.
Lemma plain_cr : plain "013".
Proof. by split. Qed.
Lemma plain_lf : plain "010".
Proof. by split. Qed.

Lemma starts_trail_double_quotes (s : string) :
  starts_trail (Csv.double_quotes s) = starts_trail s.
Proof.
  destruct s as [|a s]; [done|]. simpl.
  destruct (Ascii.eqb_spec a Csv.quotechar) as [->|_]; done.
Qed.

Lemma has_surrogate_double_quotes (s : string) :
  has_surrogate (Csv.double_quotes s) = has_surrogate s.
Proof.
  induction s as [|a s IH]; [done|]. cbn [Csv.double_quotes].
  destruct (Ascii.eqb_spec a Csv.quotechar) as [->|_].
  - rewrite !(has_surrogate_plain_cons _ _ plain_quotechar). done.
  - cbn [has_surrogate]. by rewrite starts_trail_double_quotes, IH.
Qed.

Lemma has_surrogate_quoted (s : string) :
  has_surrogate (Csv.quoted s) = has_surrogate s.
Proof.
  unfold Csv.quoted.
  rewrite (has_surrogate_plain_cons _ _ plain_quotechar).
  rewrite (has_surrogate_app_plain _ _ _ plain_quotechar), has_surrogate_double_quotes.
  by rewrite orb_false_r.
Qed.

Lemma has_surrogate_format_field (s : string) :
  has_surrogate (Csv.format_field s) = has_surrogate s.
Proof. unfold Csv.format_field. destruct (Csv.needs_quotes s); [apply has_surrogate_quoted | done]. Qed.

Lemma concat_cons_cons (sp x y : string) (l : list string) :
  String.concat sp (x :: y :: l) = x +:+ sp +:+ String.concat sp (y :: l).
Proof. reflexivity. Qed.

Lemma has_surrogate_concat (fields : list string) :
  has_surrogate (String.concat (String Csv.delimiter EmptyString) fields)
  = existsb has_surrogate fields.
Proof.
  induction fields as [|x fields IH]; [done|].
  destruct fields as [|y fields].
  - simpl. by rewrite orb_false_r.
  - rewrite concat_cons_cons, string_app_cons, string_app_nil_l.
    rewrite (has_surrogate_app_plain _ _ _ plain_delimiter), IH. done.
Qed.

(** The line of a record can be encoded exactly when each of its cells
    can. *)
Lemma has_surrogate_format_row (cells : list string) :
  has_surrogate (Csv.format_row cells) = existsb has_surrogate cells.
Proof.
  assert (has_surrogate
            (String.concat (String Csv.delimiter EmptyString) (map Csv.format_field cells)
             +:+ Csv.lineterminator)
          = existsb has_surrogate cells) as Hgen.
  { unfold Csv.lineterminator.
    rewrite (has_surrogate_app_plain _ _ _ plain_cr), has_surrogate_concat.
    rewrite (has_surrogate_plain_cons _ _ plain_lf). simpl. rewrite orb_false_r.
    induction cells as [|c cells IH]; [done|]. simpl.
    by rewrite has_surrogate_format_field, IH. }
  unfold Csv.format_row. destruct cells as [|[|a c] [|c' cells]]; exact Hgen.
Qed.

(** ** Records and their rows *)

Lemma string_app_assoc (s t u : string) : (s +:+ t) +:+ u = s +:+ (t +:+ u).
Proof. induction s as [|c s IH]; str_simpl; [done | by rewrite IH]. Qed.

Lemma dict_get_snoc (d : dict) (k key : string) (v default : value) :
  dict_get (d ++ [(k, v)]) key default
  = if String.eqb k key then v else dict_get d key default.
Proof. unfold dict_get. by rewrite fold_left_app. Qed.

Lemma agree_but_mtime_keys Q md1 md2 :
  agree_but_mtime Q md1 md2 -> dict_keys md1 = CSV_HEADERS /\ dict_keys md2 = CSV_HEADERS.
Proof.
  intros (common & t1 & t2 & -> & -> & Hkeys & _).
  unfold dict_keys in *. rewrite !map_app, Hkeys. done.
Qed.

Lemma agree_but_mtime_nonempty Q md1 md2 :
  agree_but_mtime Q md1 md2 -> md1 <> [] /\ md2 <> [].
Proof.
  intros (common & t1 & t2 & -> & -> & _). split; by destruct common.
Qed.

Lemma agree_but_mtime_eq (Q : Prop) md1 md2 :
  Q -> agree_but_mtime Q md1 md2 -> md1 = md2.
Proof.
  intros HQ (common & t1 & t2 & -> & -> & _ & _ & _ & Ht). by rewrite (Ht HQ).
Qed.

(** Records that agree but for the time give rows that agree but for the
    last cell. *)
Lemma agree_but_mtime_cells py_str Q md1 md2 :
  agree_but_mtime Q md1 md2 ->
  removelast (row_cells py_str md1) = removelast (row_cells py_str md2).
Proof.
  intros (common & t1 & t2 & -> & -> & _). unfold row_cells.
  rewrite !dict_get_snoc. reflexivity.
Qed.

(** The text of a time holds no surrogate: such rows can be encoded
    together or not at all. *)
Lemma agree_but_mtime_writable py_str Q md1 md2 :
  agree_but_mtime Q md1 md2 -> writable py_str md1 = writable py_str md2.
Proof.
  intros (common & t1 & t2 & -> & -> & _ & Ht1 & Ht2 & _).
  unfold writable. rewrite !has_surrogate_format_row. unfold row_cells.
  rewrite !dict_get_snoc. cbn [String.eqb Ascii.eqb Bool.eqb map existsb Csv.cell].
  by rewrite Ht1, Ht2.
Qed.

Lemma agree_but_mtime_writable_prefix py_str Q (recs1 recs2 : list dict) :
  Forall2 (agree_but_mtime Q) recs1 recs2 ->
  forallb (writable py_str) recs1 = forallb (writable py_str) recs2
  /\ Forall2 (agree_but_mtime Q) (writable_prefix py_str recs1) (writable_prefix py_str recs2).
Proof.
  induction 1 as [|md1 md2 recs1 recs2 Hmd _ [IH1 IH2]]; [by split|].
  cbn [forallb writable_prefix].
  rewrite (agree_but_mtime_writable py_str _ _ _ Hmd), IH1.
  split; [done|]. destruct (writable py_str md2); by constructor.
Qed.

Lemma writable_prefix_all py_str (records : list dict) :
  forallb (writable py_str) records = true -> writable_prefix py_str records = records.
Proof.
  induction records as [|md records IH]; [done|]. cbn [forallb writable_prefix].
  intros [Hmd Hall]%andb_prop. by rewrite Hmd, IH.
Qed.

Lemma writable_prefix_prefix py_str (records : list dict) :
  writable_prefix py_str records `prefix_of` records.
Proof.
  induction records as [|md records IH]; [done|]. cbn [writable_prefix].
  destruct (writable py_str md); [by apply prefix_cons | apply prefix_nil].
Qed.

Lemma dict_to_list_headers (md : dict) :
  dict_keys md = CSV_HEADERS ->
  Csv.dict_to_list CSV_HEADERS md
  = Ok (map (fun key => dict_get md key (PStr "")) CSV_HEADERS).
Proof. intros Hkeys. unfold Csv.dict_to_list. by rewrite Hkeys. Qed.

(** A record goes to the file whole, or not at all. *)
Lemma writerow_text py_str (md : dict) (w : World) :
  dict_keys md = CSV_HEADERS ->
  Csv.writerow py_str CSV_HEADERS md w
  = if writable py_str md
    then (Ok tt, mkWorld (stdout w)
                   (Some (default "" (outfile w) +:+ Csv.format_row (row_cells py_str md))))
    else (Raise encode_error, w).
Proof.
  intros Hkeys. unfold Csv.writerow, mbind, M_bind, Py.bind, lift.
  rewrite dict_to_list_headers by done.
  unfold Csv.writer_writerow, write, writable.
  change (map (Csv.cell py_str) (map (fun key => dict_get md key (PStr "")) CSV_HEADERS))
    with (row_cells py_str md).
  by destruct (has_surrogate _).
Qed.

Lemma writeheader_text py_str (w : World) :
  Csv.writeheader py_str CSV_HEADERS w
  = (Ok tt, mkWorld (stdout w) (Some (default "" (outfile w) +:+ header_line))).
Proof. reflexivity. Qed.

(** The records are written one by one, up to the first that cannot be
    encoded. *)
Lemma writerows_text py_str (records : list dict) (out : list string) (text : string) :
  Forall (fun md => dict_keys md = CSV_HEADERS) records ->
  Csv.writerows py_str CSV_HEADERS records (mkWorld out (Some text))
  = (if forallb (writable py_str) records then Ok tt else Raise encode_error,
     mkWorld out
       (Some (text +:+ foldr String.append ""
                         (map (fun md => Csv.format_row (row_cells py_str md))
                              (writable_prefix py_str records))))).
Proof.
  intros Hall. revert text.
  induction Hall as [|md records Hmd _ IH]; intros text; cbn [Csv.writerows].
  - simpl. by rewrite string_app_nil_r.
  - unfold mbind, M_bind, Py.bind. rewrite writerow_text by done.
    cbn [forallb writable_prefix]. destruct (writable py_str md); simpl.
    + rewrite IH. by rewrite string_app_assoc.
    + by rewrite string_app_nil_r.
Qed.

(** ** One file after the other *)

Lemma emit_nil (w : World) : emit w [] = w.
Proof. destruct w. unfold emit. simpl. by rewrite app_nil_r. Qed.

Lemma emit_emit (w : World) (l1 l2 : list string) :
  emit (emit w l1) l2 = emit w (l1 ++ l2).
Proof. unfold emit. simpl. by rewrite app_assoc. Qed.

Lemma outfile_emit (w : World) (l : list string) : outfile (emit w l) = outfile w.
Proof. reflexivity. Qed.

Lemma outfile_after_notice (json_files : list Path) (w : World) :
  outfile (after_notice json_files w) = outfile w.
Proof. by destruct json_files. Qed.

Section Loop.
Context (fl : Flavour) (REPO_ROOT : Path) (fs : FileSystem).
Context (isoformat : Z -> result string).

Local Abbreviation extract := (extract_metadata fl REPO_ROOT fs isoformat).
Local Abbreviation each := (extract_each fl REPO_ROOT fs isoformat).

(** What [extract_metadata] returns does not depend on the world it runs
    in, which it only extends by the lines it prints. *)
Lemma extract_metadata_frame (path : Path) (w : World) :
  extract path w
  = (outcome fl REPO_ROOT fs isoformat path,
     emit w (lines_of fl REPO_ROOT fs isoformat path)).
Proof.
  unfold outcome, lines_of, extract_metadata, try_except, mbind, M_bind, Py.bind,
    lift, json_load, stat_mtime, initial.
  destruct (file_at fs path) as [f|]; [|by destruct w].
  destruct (content f) as [err|err|err|e|data]; simpl;
    try (by destruct w); try (by rewrite emit_nil).
  - destruct (caught e); simpl; [by destruct w | by rewrite emit_nil].
  - destruct (relative_to fl path REPO_ROOT) as [relative_path|e]; simpl;
      [|destruct (caught e); simpl; [by destruct w | by rewrite emit_nil]].
    destruct (with_suffix relative_path "") as [without_suffix|e]; simpl;
      [|destruct (caught e); simpl; [by destruct w | by rewrite emit_nil]].
    destruct (isoformat (st_mtime f)) as [t|e]; simpl;
      [|destruct (caught e); simpl; [by destruct w | by rewrite emit_nil]].
    destruct data; simpl; by rewrite emit_nil.
Qed.

(** A record it returns has the columns of the index as its keys. *)
Lemma outcome_record_keys (path : Path) (md : dict) :
  outcome fl REPO_ROOT fs isoformat path = Ok (Some md) -> dict_keys md = CSV_HEADERS.
Proof.
  unfold outcome, extract_metadata, try_except, mbind, M_bind, Py.bind,
    lift, json_load, stat_mtime, initial.
  destruct (file_at fs path) as [f|]; [|done].
  destruct (content f) as [err|err|err|e|data]; simpl; try done.
  - by destruct (caught e).
  - destruct (relative_to fl path REPO_ROOT) as [relative_path|e]; simpl;
      [|by destruct (caught e)].
    destruct (with_suffix relative_path "") as [without_suffix|e]; simpl;
      [|by destruct (caught e)].
    destruct (isoformat (st_mtime f)) as [t|e]; simpl; [|by destruct (caught e)].
    destruct data; simpl; try done. by intros [= <-].
Qed.

Lemma extracted_keys (paths : list Path) :
  Forall (fun md => dict_keys md = CSV_HEADERS) (extracted fl REPO_ROOT fs isoformat paths).
Proof.
  apply Forall_forall. intros md Hmd. unfold extracted in Hmd.
  apply list_elem_of_omap in Hmd as (p & _ & Hp).
  destruct (outcome fl REPO_ROOT fs isoformat p) as [m|e] eqn:E; [|done].
  subst m. by apply (outcome_record_keys p).
Qed.

Lemma extracted_cons (p : Path) (l : list Path) :
  extracted fl REPO_ROOT fs isoformat (p :: l)
  = match outcome fl REPO_ROOT fs isoformat p with
    | Ok (Some md) => md :: extracted fl REPO_ROOT fs isoformat l
    | _ => extracted fl REPO_ROOT fs isoformat l
    end.
Proof.
  unfold extracted. cbn [omap list_omap].
  by destruct (outcome fl REPO_ROOT fs isoformat p) as [[md|]|].
Qed.

Lemma extracted_app (l1 l2 : list Path) :
  extracted fl REPO_ROOT fs isoformat (l1 ++ l2)
  = extracted fl REPO_ROOT fs isoformat l1 ++ extracted fl REPO_ROOT fs isoformat l2.
Proof.
  induction l1 as [|p l1 IH]; [done|].
  rewrite <- app_comm_cons, !extracted_cons, IH.
  by destruct (outcome fl REPO_ROOT fs isoformat p) as [[md|]|].
Qed.

Lemma extracted_prefix (l1 l2 : list Path) :
  extracted fl REPO_ROOT fs isoformat l1
  `prefix_of` extracted fl REPO_ROOT fs isoformat (l1 ++ l2).
Proof. rewrite extracted_app. by apply prefix_app_r. Qed.

(** The loop runs [extract_metadata] on the files in order: either none
    raises, and it returns their records and has printed their lines; or it
    stops at the first that raises, with that exception, having printed the
    lines of the files before it. *)
Lemma extract_each_cases (paths : list Path) (recs : list dict) (w : World) :
  (Forall (fun p => raises fl REPO_ROOT fs isoformat p = false) paths
   /\ each paths recs w
      = (Ok (recs ++ extracted fl REPO_ROOT fs isoformat paths),
         emit w (printed fl REPO_ROOT fs isoformat paths)))
  \/ (exists before p after e,
        paths = before ++ p :: after
        /\ Forall (fun p => raises fl REPO_ROOT fs isoformat p = false) before
        /\ outcome fl REPO_ROOT fs isoformat p = Raise e
        /\ lines_of fl REPO_ROOT fs isoformat p = []
        /\ each paths recs w = (Raise e, emit w (printed fl REPO_ROOT fs isoformat before))).
Proof.
  revert recs w. induction paths as [|path paths IH]; intros recs w.
  - left. split; [done|]. simpl. unfold extracted, printed. simpl.
    by rewrite app_nil_r, emit_nil.
  - cbn [extract_each]. unfold mbind, M_bind, Py.bind.
    rewrite extract_metadata_frame.
    destruct (outcome fl REPO_ROOT fs isoformat path) as [m|e] eqn:Eo.
    + assert (raises fl REPO_ROOT fs isoformat path = false) as Hno
        by (unfold raises; by rewrite Eo).
      assert (exists recs',
                 match m with
                 | Some ((_ :: _) as md) => each paths (recs ++ [md])
                 | _ => each paths recs
                 end = each paths recs'
                 /\ recs ++ extracted fl REPO_ROOT fs isoformat (path :: paths)
                    = recs' ++ extracted fl REPO_ROOT fs isoformat paths) as (recs' & -> & Hrecs).
      { rewrite extracted_cons, Eo.
        destruct m as [md|].
        - pose proof (outcome_record_keys path md Eo) as Hk.
          destruct md as [|kv md]; [done|]. exists (recs ++ [kv :: md]).
          split; [done|]. by rewrite <- app_assoc.
        - by exists recs. }
      destruct (IH recs' (emit w (lines_of fl REPO_ROOT fs isoformat path)))
        as [[Hall Hrun]|(before & p & after & e & -> & Hall & Hp & Hl & Hrun)].
      * left. split; [by constructor|]. rewrite Hrun, Hrecs, emit_emit. done.
      * right. exists (path :: before), p, after, e.
        split; [done|]. split; [by constructor|]. split; [done|]. split; [done|].
        rewrite Hrun, emit_emit. done.
    + right. exists [], path, paths, e. split; [done|]. split; [done|]. split; [done|].
      assert (lines_of fl REPO_ROOT fs isoformat path = []) as Hl.
      { revert Eo. unfold outcome, lines_of, extract_metadata, try_except, mbind,
          M_bind, Py.bind, lift, json_load, stat_mtime, initial.
        destruct (file_at fs path) as [f|]; [|done].
        destruct (content f) as [err|err|err|e'|data]; simpl; try done.
        - by destruct (caught e').
        - destruct (relative_to fl path REPO_ROOT) as [relative_path|e']; simpl;
            [|by destruct (caught e')].
          destruct (with_suffix relative_path "") as [without_suffix|e']; simpl;
            [|by destruct (caught e')].
          destruct (isoformat (st_mtime f)) as [t|e']; simpl; [|by destruct (caught e')].
          by destruct data. }
      split; [done|]. rewrite Hl. unfold printed. simpl. done.
Qed.
End Loop.

(** ** Two runs over the same contents *)

Section TwoRuns.
Context (fl : Flavour) (REPO_ROOT : Path) (fs1 fs2 : FileSystem).
Context (isoformat1 isoformat2 : Z -> result string).
Hypothesis Hsame : same_contents fs1 fs2.
Hypothesis Hrender1 : renderable isoformat1 fs1.
Hypothesis Hrender2 : renderable isoformat2 fs2.

Local Abbreviation Q := (same_files fs1 fs2 /\ forall t, isoformat1 t = isoformat2 t).

Lemma extract_metadata_same_contents (path : Path) (w : World) :
  snd (extract_metadata fl REPO_ROOT fs1 isoformat1 path w)
  = snd (extract_metadata fl REPO_ROOT fs2 isoformat2 path w)
  /\ outfile (snd (extract_metadata fl REPO_ROOT fs1 isoformat1 path w)) = outfile w
  /\ related_results (related_metadata Q)
       (fst (extract_metadata fl REPO_ROOT fs1 isoformat1 path w))
       (fst (extract_metadata fl REPO_ROOT fs2 isoformat2 path w)).
Proof.
  pose proof (Hsame path) as Hp.
  pose proof (Hrender1 path) as H1. pose proof (Hrender2 path) as H2.
  unfold extract_metadata, try_except, mbind, M_bind, Py.bind, lift,
    json_load, stat_mtime.
  destruct (file_at fs1 path) as [f1|] eqn:E1, (file_at fs2 path) as [f2|] eqn:E2;
    simpl in Hp; try discriminate; [|by repeat split].
  injection Hp as Hc. rewrite Hc.
  destruct (H1 f1 eq_refl) as (t1 & Ht1 & Hs1).
  destruct (H2 f2 eq_refl) as (t2 & Ht2 & Hs2).
  destruct (content f2) as [err|err|err|e|data]; simpl; try (by repeat split).
  { destruct (caught e); by repeat split. }
  destruct (relative_to fl path REPO_ROOT) as [relative_path|e]; simpl;
    [|destruct (caught e); by repeat split].
  destruct (with_suffix relative_path "") as [without_suffix|e]; simpl;
    [|destruct (caught e); by repeat split].
  rewrite Ht1, Ht2. simpl.
  destruct data; simpl; try (by repeat split).
  split; [done|]. split; [done|].
  eexists [ _; _; _; _; _; _; _; _ ], t1, t2.
  split; [reflexivity|]. split; [reflexivity|]. split; [reflexivity|].
  split; [done|]. split; [done|].
  intros [HQ Hiso]. specialize (HQ path). rewrite E1, E2 in HQ. simplify_eq.
  rewrite Hiso in Ht1. congruence.
Qed.

Lemma extract_each_same_contents (paths : list Path) (recs1 recs2 : list dict) (w : World) :
  Forall2 (agree_but_mtime Q) recs1 recs2 ->
  snd (extract_each fl REPO_ROOT fs1 isoformat1 paths recs1 w)
  = snd (extract_each fl REPO_ROOT fs2 isoformat2 paths recs2 w)
  /\ outfile (snd (extract_each fl REPO_ROOT fs1 isoformat1 paths recs1 w)) = outfile w
  /\ related_results (Forall2 (agree_but_mtime Q))
       (fst (extract_each fl REPO_ROOT fs1 isoformat1 paths recs1 w))
       (fst (extract_each fl REPO_ROOT fs2 isoformat2 paths recs2 w)).
Proof.
  revert recs1 recs2 w.
  induction paths as [|path paths IH]; intros recs1 recs2 w Hrecs; simpl; [done|].
  unfold mbind, M_bind, Py.bind.
  destruct (extract_metadata_same_contents path w) as (Hw & Hout & Hrel).
  destruct (extract_metadata fl REPO_ROOT fs1 isoformat1 path w) as [r1 w1].
  destruct (extract_metadata fl REPO_ROOT fs2 isoformat2 path w) as [r2 w2].
  simpl in Hw, Hout, Hrel. subst w2.
  destruct r1 as [m1|e1], r2 as [m2|e2]; simpl in Hrel; try done.
  destruct m1 as [md1|], m2 as [md2|]; simpl in Hrel; try done.
  - destruct (agree_but_mtime_nonempty _ _ _ Hrel) as [Hne1 Hne2].
    destruct md1 as [|m1 md1]; [done|]. destruct md2 as [|m2 md2]; [done|].
    destruct (IH (recs1 ++ [m1 :: md1]) (recs2 ++ [m2 :: md2]) w1) as (? & ? & ?).
    { apply Forall2_app; [done|]. by constructor. }
    split; [done|]. split; [congruence | done].
  - destruct (IH recs1 recs2 w1 Hrecs) as (? & ? & ?).
    split; [done|]. split; [congruence | done].
Qed.

(** The records of the two runs agree but for the time. *)
Lemma extracted_same_contents (paths : list Path) :
  Forall2 (agree_but_mtime Q)
    (extracted fl REPO_ROOT fs1 isoformat1 paths)
    (extracted fl REPO_ROOT fs2 isoformat2 paths).
Proof.
  induction paths as [|path paths IH]; [constructor|].
  rewrite !extracted_cons. unfold outcome.
  destruct (extract_metadata_same_contents path initial) as (_ & _ & Hrel).
  destruct (fst (extract_metadata fl REPO_ROOT fs1 isoformat1 path initial)) as [m1|e1],
    (fst (extract_metadata fl REPO_ROOT fs2 isoformat2 path initial)) as [m2|e2];
    simpl in Hrel; try done.
  destruct m1 as [md1|], m2 as [md2|]; simpl in Hrel; try done.
  by constructor.
Qed.
End TwoRuns.

Lemma agree_but_mtime_Forall2_eq (Q : Prop) (recs1 recs2 : list dict) :
  Q -> Forall2 (agree_but_mtime Q) recs1 recs2 -> recs1 = recs2.
Proof.
  intros HQ. induction 1 as [|md1 md2 ? ? Hmd _ IH]; [done|].
  by rewrite (agree_but_mtime_eq _ _ _ HQ Hmd), IH.
Qed.

Lemma Forall2_take_prefix {A} (R : A -> A -> Prop) (l1 l2 k1 k2 : list A) :
  Forall2 R l1 l2 -> Forall2 R k1 k2 -> k1 `prefix_of` l1 -> k2 `prefix_of` l2 ->
  k1 = take (length k1) l1 /\ k2 = take (length k1) l2.
Proof.
  intros _ Hk [r1 ->] [r2 ->]. rewrite (Forall2_length _ _ _ Hk) at 2.
  by rewrite !take_app_length.
Qed.

(** ** Generation: [generate_index] *)

Section Generation.
Context (fl : Flavour) (REPO_ROOT : Path) (fs : FileSystem).
Context (isoformat : Z -> result string) (py_str : value -> string).

Local Abbreviation json_files := (find_json_files fl fs REPO_ROOT).

Lemma generate_index_raise (output_file : Path) (w w1 : World) (e : exn) :
  extract_each fl REPO_ROOT fs isoformat json_files [] (after_notice json_files w)
  = (Raise e, w1) ->
  generate_index fl REPO_ROOT fs isoformat py_str output_file w = (Raise e, w1).
Proof.
  intros Hrun. unfold generate_index, mbind, M_bind, Py.bind.
  replace (match json_files with [] => print _ | _ => mret tt end w)
    with (Ok tt, after_notice json_files w) by (by destruct json_files).
  by rewrite Hrun.
Qed.

(** Once the files are read, the index is written record by record: whole
    when every record can be encoded, and else up to the first that
    cannot. *)
Lemma generate_index_return (output_file : Path) (w w1 : World) (records : list dict) :
  extract_each fl REPO_ROOT fs isoformat json_files [] (after_notice json_files w)
  = (Ok records, w1) ->
  Forall (fun md => dict_keys md = CSV_HEADERS) records ->
  generate_index fl REPO_ROOT fs isoformat py_str output_file w
  = if forallb (writable py_str) records
    then (Ok tt, mkWorld (stdout w1 ++ summary fl records output_file)
                   (Some (index_text py_str records)))
    else (Raise encode_error,
          mkWorld (stdout w1) (Some (index_text py_str (writable_prefix py_str records)))).
Proof.
  intros Hrun Hkeys.
  unfold generate_index, mbind, M_bind, Py.bind.
  replace (match json_files with [] => print _ | _ => mret tt end w)
    with (Ok tt, after_notice json_files w) by (by destruct json_files).
  rewrite Hrun. unfold open_w. rewrite writeheader_text. simpl default.
  rewrite string_app_nil_l, writerows_text by done.
  destruct (forallb (writable py_str) records) eqn:Hall.
  - rewrite writable_prefix_all by done.
    unfold print, summary, index_text; simpl. by rewrite <- app_assoc.
  - reflexivity.
Qed.

(** The run as a whole.  Either no file makes [extract_metadata] raise:
    then the records of the files are written, all of them and the run
    returns, or up to the first that cannot be encoded and the run raises.
    Or the run stops at the first file on which [extract_metadata] raises,
    before the output file is opened. *)
Lemma generate_index_cases (output_file : Path) (w : World) :
  (Forall (fun p => raises fl REPO_ROOT fs isoformat p = false) json_files
   /\ generate_index fl REPO_ROOT fs isoformat py_str output_file w
      = if forallb (writable py_str) (extracted fl REPO_ROOT fs isoformat json_files)
        then (Ok tt,
              mkWorld (stdout (after_notice json_files w)
                       ++ printed fl REPO_ROOT fs isoformat json_files
                       ++ summary fl (extracted fl REPO_ROOT fs isoformat json_files)
                            output_file)
                      (Some (index_text py_str
                               (extracted fl REPO_ROOT fs isoformat json_files))))
        else (Raise encode_error,
              mkWorld (stdout (after_notice json_files w)
                       ++ printed fl REPO_ROOT fs isoformat json_files)
                      (Some (index_text py_str
                               (writable_prefix py_str
                                  (extracted fl REPO_ROOT fs isoformat json_files))))))
  \/ (exists before p after e,
        json_files = before ++ p :: after
        /\ Forall (fun p => raises fl REPO_ROOT fs isoformat p = false) before
        /\ outcome fl REPO_ROOT fs isoformat p = Raise e
        /\ generate_index fl REPO_ROOT fs isoformat py_str output_file w
           = (Raise e,
              emit (after_notice json_files w) (printed fl REPO_ROOT fs isoformat before))).
Proof.
  destruct (extract_each_cases fl REPO_ROOT fs isoformat json_files []
              (after_notice json_files w))
    as [[Hall Hrun]|(before & p & after & e & Hsplit & Hall & Hp & _ & Hrun)].
  - left. split; [done|]. simpl in Hrun.
    rewrite (generate_index_return output_file w _ _ Hrun)
      by apply extracted_keys.
    destruct (forallb _ _); simpl; [by rewrite <- app_assoc | done].
  - right. exists before, p, after, e. split; [done|]. split; [done|]. split; [done|].
    by apply generate_index_raise.
Qed.

(** With nothing found, the run prints the notice and the summary and
    writes the header alone. *)
Lemma generate_index_no_files (output_file : Path) (w : World) :
  find_json_files fl fs REPO_ROOT = [] ->
  generate_index fl REPO_ROOT fs isoformat py_str output_file w
  = (Ok tt,
     mkWorld (stdout w ++ [ "No JSON files found to index.";
                            "✓ Generated index with 0 vocabulary configuration(s)";
                            "✓ Index saved to: " +:+ str fl output_file ])
             (Some header_line)).
Proof.
  intros Hnone.
  rewrite (generate_index_return output_file w (after_notice [] w) [])
    by (by rewrite ?Hnone).
  unfold index_text, summary; simpl.
  by rewrite <- app_assoc, string_app_nil_r.
Qed.

(** A root that has an excluded name among its own parts hides every
    file. *)
Lemma find_json_files_excluded_root (d : string) :
  excluded_name d -> d ∈ parts REPO_ROOT -> find_json_files fl fs REPO_ROOT = [].
Proof.
  intros Hd Hin. apply elem_of_nil_inv. intros p Hp.
  apply elem_of_find_json_files in Hp as [Hkeep Hp].
  apply elem_of_rglob in Hp as (ds & nm & _ & _ & ->).
  assert (should_exclude_path (joinpath REPO_ROOT (ds ++ [nm])) = true) as Hex;
    [|congruence].
  apply any_excluded_true. exists d. rewrite parts_joinpath, elem_of_app.
  split; [by left | by apply elem_of_EXCLUDE_DIRS].
Qed.
End Generation.

Lemma elem_of_removelast {A} (x : A) (l : list A) : x ∈ removelast l -> x ∈ l.
Proof.
  induction l as [|a l IH]; simpl; [done|].
  destruct l as [|b l]; [by intros ?%elem_of_nil|].
  intros [-> | Hin]%elem_of_cons; [by left | right; by apply IH].
Qed.

Lemma elem_of_parent_parts (d : string) (p : Path) : d ∈ names (parent p) -> d ∈ parts p.
Proof.
  unfold parent, parts; simpl. intros Hin%elem_of_removelast.
  case_decide; [done | by right].
Qed.

(** C7. When no file is found, [generate_index] prints the notice, writes an
    index that holds the header record alone, prints the summary and
    returns. *)
Theorem no_files_header_only fl REPO_ROOT fs isoformat py_str
    (output_file : Path) (w : World) :
  find_json_files fl fs REPO_ROOT = [] ->
  generate_index fl REPO_ROOT fs isoformat py_str output_file w
  = (Ok tt,
     mkWorld (stdout w ++ [ "No JSON files found to index.";
                            "✓ Generated index with 0 vocabulary configuration(s)";
                            "✓ Index saved to: " +:+ str fl output_file ])
             (Some ("id,filename,url,label,namespaceUri,prefix,format,comment,last_modified"
                    +:+ Csv.lineterminator))).
Proof. apply generate_index_no_files. Qed.

Lemma no_files_header_only_witness :
  generate_index Posix Sample.root Sample.fs_empty Sample.isoformat Sample.py_str
    Sample.output_file initial
  = (Ok tt,
     mkWorld (stdout initial ++ [ "No JSON files found to index.";
                                  "✓ Generated index with 0 vocabulary configuration(s)";
                                  "✓ Index saved to: " +:+ str Posix Sample.output_file ])
             (Some ("id,filename,url,label,namespaceUri,prefix,format,comment,last_modified"
                    +:+ Csv.lineterminator))).
Proof.
  apply (no_files_header_only Posix Sample.root Sample.fs_empty).
  vm_compute. reflexivity.
Defined.


(** The claim behind C9, as it stands, does not hold: the same tree with the
    same contents gives an index at one run and none at the next, when a
    modification time has left the range of [datetime] in between (the
    [ValueError] of [fromtimestamp] is not caught); and with no modification
    time changed, the [last_modified] cells still differ when the local
    time zone does. *)
Lemma rerun_same_index_counterexample :
  let run1 := generate_index Posix Sample.root Sample.fs Sample.isoformat Sample.py_str
                Sample.output_file initial in
  let run2 := generate_index Posix Sample.root Sample.fs_future Sample.isoformat
                Sample.py_str Sample.output_file initial in
  let run3 := generate_index Posix Sample.root Sample.fs Sample.isoformat_brussels
                Sample.py_str Sample.output_file initial in
  walk Sample.fs_future Sample.root = walk Sample.fs Sample.root
  /\ same_contents Sample.fs Sample.fs_future
  /\ fst run1 = Ok tt
  /\ outfile (snd run1)
     = Some (header_line
             +:+ "dcterms/voc,voc.json,,Dublin Core,,dcterms,,,2023-11-14T22:13:20"
             +:+ Csv.lineterminator
             +:+ "foaf/voc,voc.json,,FOAF,,,,,2023-11-14T22:19:20"
             +:+ Csv.lineterminator)
  /\ run2 = (Raise (ValueError "year 10000 is out of range"), initial)
  /\ fst run3 = Ok tt
  /\ outfile (snd run3)
     = Some (header_line
             +:+ "dcterms/voc,voc.json,,Dublin Core,,dcterms,,,2023-11-14T23:13:20"
             +:+ Csv.lineterminator
             +:+ "foaf/voc,voc.json,,FOAF,,,,,2023-11-14T23:19:20"
             +:+ Csv.lineterminator)
  /\ outfile (snd run3) <> outfile (snd run1).
Proof.
  split; [reflexivity|]. split.
  { intros p. simpl. repeat case_decide; reflexivity. }
  split; [vm_compute; reflexivity|]. split; [vm_compute; reflexivity|].
  split; [vm_compute; reflexivity|]. split; [vm_compute; reflexivity|].
  split; [vm_compute; reflexivity|]. vm_compute. discriminate.
Qed.

(** C9. Two runs over the same tree and the same file contents, in both of
    which every modification time can be rendered, end alike and print the
    same lines; the records of the two runs agree cell by cell but for
    [last_modified]; when the runs return, the two indexes hold these
    records; when they raise, both output files are as they were, or both
    indexes stop after the same number of records; and when neither a
    modification time nor the rendering of the times (the local time zone)
    has changed, the two runs leave the very same output. *)
Theorem rerun_same_index fl REPO_ROOT fs1 fs2 isoformat1 isoformat2 py_str
    (output_file : Path) (w : World) :
  walk fs2 REPO_ROOT ≡ₚ walk fs1 REPO_ROOT ->
  case_distinct fl (walk fs1 REPO_ROOT) ->
  ascii_names fl (walk fs1 REPO_ROOT) ->
  same_contents fs1 fs2 ->
  renderable isoformat1 fs1 ->
  renderable isoformat2 fs2 ->
  let run1 := generate_index fl REPO_ROOT fs1 isoformat1 py_str output_file w in
  let run2 := generate_index fl REPO_ROOT fs2 isoformat2 py_str output_file w in
  let records1 := extracted fl REPO_ROOT fs1 isoformat1 (find_json_files fl fs1 REPO_ROOT) in
  let records2 := extracted fl REPO_ROOT fs2 isoformat2 (find_json_files fl fs2 REPO_ROOT) in
  fst run1 = fst run2
  /\ stdout (snd run1) = stdout (snd run2)
  /\ Forall2 (fun md1 md2 =>
                removelast (row_cells py_str md1) = removelast (row_cells py_str md2))
             records1 records2
  /\ match fst run1 with
     | Ok _ =>
         outfile (snd run1) = Some (index_text py_str records1)
         /\ outfile (snd run2) = Some (index_text py_str records2)
     | Raise _ =>
         (outfile (snd run1) = outfile w /\ outfile (snd run2) = outfile w)
         \/ exists n,
              outfile (snd run1) = Some (index_text py_str (take n records1))
              /\ outfile (snd run2) = Some (index_text py_str (take n records2))
     end
  /\ (same_files fs1 fs2 -> (forall t, isoformat1 t = isoformat2 t) -> run1 = run2).
Proof.
  intros Hperm Hcd _ Hsame Hr1 Hr2 run1 run2 records1 records2.
  subst run1 run2 records1 records2.
  pose proof (find_json_files_walk_order fl fs1 fs2 REPO_ROOT Hperm Hcd) as Hfind.
  pose proof (generate_index_return fl REPO_ROOT fs2 isoformat2 py_str output_file w) as Hret2.
  pose proof (generate_index_raise fl REPO_ROOT fs2 isoformat2 py_str output_file w) as Hexn2.
  pose proof (extract_each_cases fl REPO_ROOT fs2 isoformat2
                (find_json_files fl fs2 REPO_ROOT) []
                (after_notice (find_json_files fl fs2 REPO_ROOT) w)) as Hcases2.
  rewrite Hfind in Hret2, Hexn2, Hcases2 |- *.
  pose proof (extract_each_cases fl REPO_ROOT fs1 isoformat1
                (find_json_files fl fs1 REPO_ROOT) []
                (after_notice (find_json_files fl fs1 REPO_ROOT) w)) as Hcases1.
  pose proof (extracted_same_contents fl REPO_ROOT fs1 fs2 isoformat1 isoformat2
                Hsame Hr1 Hr2 (find_json_files fl fs1 REPO_ROOT)) as Hrecs.
  destruct (extract_each_same_contents fl REPO_ROOT fs1 fs2 isoformat1 isoformat2
              Hsame Hr1 Hr2 (find_json_files fl fs1 REPO_ROOT) [] []
              (after_notice (find_json_files fl fs1 REPO_ROOT) w))
    as (Hw & Hout & Hrel); [constructor|].
  set (records1 := extracted fl REPO_ROOT fs1 isoformat1 (find_json_files fl fs1 REPO_ROOT))
    in *.
  set (records2 := extracted fl REPO_ROOT fs2 isoformat2 (find_json_files fl fs1 REPO_ROOT))
    in *.
  assert (Forall2 (fun md1 md2 =>
                     removelast (row_cells py_str md1) = removelast (row_cells py_str md2))
                  records1 records2) as Hcells.
  { eapply Forall2_impl; [exact Hrecs|]. intros md1 md2. apply agree_but_mtime_cells. }
  destruct (extract_each fl REPO_ROOT fs1 isoformat1 (find_json_files fl fs1 REPO_ROOT) []
              (after_notice (find_json_files fl fs1 REPO_ROOT) w)) as [r1 w1] eqn:Hrun1.
  destruct (extract_each fl REPO_ROOT fs2 isoformat2 (find_json_files fl fs1 REPO_ROOT) []
              (after_notice (find_json_files fl fs1 REPO_ROOT) w)) as [r2 w2] eqn:Hrun2.
  simpl in Hw, Hout, Hrel. subst w2.
  destruct r1 as [recs1|e1], r2 as [recs2|e2]; simpl in Hrel; try done.
  - assert (recs1 = records1) as ->.
    { destruct Hcases1 as [[_ Heq]|(? & ? & ? & ? & _ & _ & _ & _ & Heq)]; simpl in Heq; congruence. }
    assert (recs2 = records2) as ->.
    { destruct Hcases2 as [[_ Heq]|(? & ? & ? & ? & _ & _ & _ & _ & Heq)]; simpl in Heq; congruence. }
    rewrite (generate_index_return _ _ _ _ _ _ _ _ _ Hrun1) by apply extracted_keys.
    rewrite (Hret2 _ _ eq_refl) by apply extracted_keys.
    destruct (agree_but_mtime_writable_prefix py_str _ _ _ Hrecs) as [Hall Hpre].
    rewrite <- Hall.
    destruct (forallb (writable py_str) records1) eqn:Hwr; simpl.
    + split; [done|]. split.
      { unfold summary. by rewrite (Forall2_length _ _ _ Hrecs). }
      split; [done|]. split; [done|].
      intros Hfiles Hiso.
      by rewrite (agree_but_mtime_Forall2_eq _ _ _ (conj Hfiles Hiso) Hrecs).
    + split; [done|]. split; [done|]. split; [done|]. split.
      { right. exists (length (writable_prefix py_str records1)).
        destruct (Forall2_take_prefix _ _ _ _ _ Hrecs Hpre
                    (writable_prefix_prefix py_str records1)
                    (writable_prefix_prefix py_str records2)) as [<- <-]. done. }
      intros Hfiles Hiso.
      by rewrite (agree_but_mtime_Forall2_eq _ _ _ (conj Hfiles Hiso) Hrecs).
  - subst e2. rewrite (generate_index_raise _ _ _ _ _ _ _ _ _ Hrun1), (Hexn2 _ _ eq_refl).
    simpl. rewrite Hout, outfile_after_notice.
    split; [done|]. split; [done|]. split; [done|]. split; [by left | done].
Qed.

Lemma rerun_same_index_witness :
  let run1 := generate_index Posix Sample.root Sample.fs Sample.isoformat Sample.py_str
                Sample.output_file initial in
  let run2 := generate_index Posix Sample.root Sample.fs_touched Sample.isoformat_brussels
                Sample.py_str Sample.output_file initial in
  let records1 := extracted Posix Sample.root Sample.fs Sample.isoformat
                    (find_json_files Posix Sample.fs Sample.root) in
  let records2 := extracted Posix Sample.root Sample.fs_touched Sample.isoformat_brussels
                    (find_json_files Posix Sample.fs_touched Sample.root) in
  fst run1 = fst run2
  /\ stdout (snd run1) = stdout (snd run2)
  /\ Forall2 (fun md1 md2 =>
                removelast (row_cells Sample.py_str md1)
                = removelast (row_cells Sample.py_str md2))
             records1 records2
  /\ match fst run1 with
     | Ok _ =>
         outfile (snd run1) = Some (index_text Sample.py_str records1)
         /\ outfile (snd run2) = Some (index_text Sample.py_str records2)
     | Raise _ =>
         (outfile (snd run1) = outfile initial /\ outfile (snd run2) = outfile initial)
         \/ exists n,
              outfile (snd run1) = Some (index_text Sample.py_str (take n records1))
              /\ outfile (snd run2) = Some (index_text Sample.py_str (take n records2))
     end
  /\ (same_files Sample.fs Sample.fs_touched ->
      (forall t, Sample.isoformat t = Sample.isoformat_brussels t) -> run1 = run2).
Proof.
  apply (rerun_same_index Posix Sample.root Sample.fs Sample.fs_touched).
  - simpl. symmetry. apply Permutation_rev.
  - apply case_distinct_posix.
  - exact I.
  - intros p. simpl. repeat case_decide; reflexivity.
  - intros p f. simpl. repeat case_decide; intros [= <-]; eexists; split; reflexivity.
  - intros p f. simpl. repeat case_decide; intros [= <-]; eexists; split; reflexivity.
Defined.

(** C10. The exclusion looks at every part of the path, the ones above the
    root included: when a directory above the root bears an excluded name,
    [find_json_files] finds nothing, whatever the tree holds, and
    [generate_index] writes the header alone. *)
Theorem excluded_ancestor_empty_index fl REPO_ROOT fs isoformat py_str
    (output_file : Path) (w : World) (d : string) :
  excluded_name d ->
  d ∈ names (parent REPO_ROOT) ->
  find_json_files fl fs REPO_ROOT = []
  /\ generate_index fl REPO_ROOT fs isoformat py_str output_file w
     = (Ok tt,
        mkWorld (stdout w ++ [ "No JSON files found to index.";
                               "✓ Generated index with 0 vocabulary configuration(s)";
                               "✓ Index saved to: " +:+ str fl output_file ])
                (Some ("id,filename,url,label,namespaceUri,prefix,format,comment,last_modified"
                       +:+ Csv.lineterminator))).
Proof.
  intros Hd Hin.
  assert (find_json_files fl fs REPO_ROOT = []) as Hnone.
  { apply (find_json_files_excluded_root fl REPO_ROOT fs d Hd).
    by apply elem_of_parent_parts. }
  split; [done | by apply generate_index_no_files].
Qed.

Lemma excluded_ancestor_empty_index_witness :
  find_json_files Posix Sample.nested_fs Sample.nested_root = []
  /\ generate_index Posix Sample.nested_root Sample.nested_fs Sample.isoformat
       Sample.py_str Sample.output_file initial
     = (Ok tt,
        mkWorld (stdout initial ++ [ "No JSON files found to index.";
                                     "✓ Generated index with 0 vocabulary configuration(s)";
                                     "✓ Index saved to: " +:+ str Posix Sample.output_file ])
                (Some ("id,filename,url,label,namespaceUri,prefix,format,comment,last_modified"
                       +:+ Csv.lineterminator))).
Proof.
  apply (excluded_ancestor_empty_index Posix Sample.nested_root Sample.nested_fs
           Sample.isoformat Sample.py_str Sample.output_file initial "venv").
  - right; right; right; reflexivity.
  - refine (bool_decide_unpack _ _). vm_compute. exact I.
Defined.


(** * Further properties of the script *)

(** ** What [extract_metadata] does with any path *)

Lemma json_load_Ok fs path data :
  json_load fs path = Ok data <->
  exists f, file_at fs path = Some f /\ content f = Document data.
Proof.
  unfold json_load. split.
  - destruct (file_at fs path) as [f|]; [|done].
    destruct (content f) eqn:Hc; try done. intros [= ->]. by exists f.
  - intros (f & -> & ->). done.
Qed.

Section Outcomes.
Context (fl : Flavour) (REPO_ROOT : Path) (fs : FileSystem).
Context (isoformat : Z -> result string).

Local Abbreviation extract := (extract_metadata fl REPO_ROOT fs isoformat).

(** Loading fails: the exception is caught and reported, or it leaves. *)
Lemma extract_metadata_load_raises path e w :
  json_load fs path = Raise e ->
  extract path w
  = if caught e then (Ok None, emit w [warning_line fl path e]) else (Raise e, w).
Proof.
  intros Hload.
  unfold extract_metadata, try_except, mbind, M_bind, Py.bind, lift.
  rewrite Hload. by destruct (caught e).
Qed.


(** The three ways in which [extract_metadata] ends. *)
Lemma extract_metadata_trichotomy path w :
  (exists md, extract path w = (Ok (Some md), w) /\ dict_keys md = CSV_HEADERS)
  \/ (exists e, caught e = true
               /\ extract path w = (Ok None, emit w [warning_line fl path e]))
  \/ (exists e, caught e = false /\ extract path w = (Raise e, w)).
Proof.
  destruct (json_load fs path) as [data|e] eqn:Hload.
  - apply json_load_Ok in Hload as (f & Hfile & Hdoc).
    unfold extract_metadata, try_except, mbind, M_bind, Py.bind, lift,
      json_load, stat_mtime, relative_to, with_suffix.
    rewrite Hfile, Hdoc.
    case_decide; simpl; [|right; right; eexists; split; [|reflexivity]; reflexivity].
    case_decide; simpl; [right; right; eexists; split; [|reflexivity]; reflexivity|].
    destruct (isoformat (st_mtime f)) as [t|e]; simpl.
    + destruct data; simpl;
        try (right; right; eexists; split; [|reflexivity]; reflexivity).
      left. eexists. split; reflexivity.
    + destruct (caught e) eqn:Hc; [right; left | right; right]; by exists e.
  - rewrite (extract_metadata_load_raises _ _ _ Hload).
    destruct (caught e) eqn:Hc; [right; left | right; right]; by exists e.
Qed.

(** X2. Whatever the path, [extract_metadata] ends in one of three ways: it
    returns a record whose keys are the nine columns of the index, in their
    order, and prints nothing; or it returns [None] after one warning for an
    exception it catches; or it raises an exception it does not catch, and
    prints nothing.  It never touches the output file. *)
Theorem extract_metadata_outcomes path w :
  (exists md, extract path w = (Ok (Some md), w) /\ dict_keys md = CSV_HEADERS)
  \/ (exists e, caught e = true
               /\ extract path w = (Ok None, emit w [warning_line fl path e]))
  \/ (exists e, caught e = false /\ extract path w = (Raise e, w)).
Proof. apply extract_metadata_trichotomy. Qed.


(** The same three ways, in terms of what is returned and printed. *)
Lemma outcome_cases path :
  (exists md, outcome fl REPO_ROOT fs isoformat path = Ok (Some md)
              /\ dict_keys md = CSV_HEADERS
              /\ lines_of fl REPO_ROOT fs isoformat path = [])
  \/ (exists e, caught e = true
               /\ outcome fl REPO_ROOT fs isoformat path = Ok None
               /\ lines_of fl REPO_ROOT fs isoformat path = [warning_line fl path e])
  \/ (exists e, caught e = false
               /\ outcome fl REPO_ROOT fs isoformat path = Raise e
               /\ lines_of fl REPO_ROOT fs isoformat path = []).
Proof.
  unfold outcome, lines_of.
  destruct (extract_metadata_trichotomy path initial)
    as [(md & -> & Hk) | [(e & Hc & ->) | (e & Hc & ->)]].
  - left. by exists md.
  - right; left. by exists e.
  - right; right. by exists e.
Qed.
End Outcomes.

(** ** The files [find_json_files] returns *)

(** X4. The paths [find_json_files] returns are exactly the entries met
    below the root whose name ends in [.json] (whatever the case, on Windows,
    where the names are taken to be in ASCII) and none of whose parts is an
    excluded name: nothing else is returned and no such entry is left
    out. *)
Theorem find_json_files_exactly fl fs root (p : Path) :
  ascii_names fl (walk fs root) ->
  p ∈ find_json_files fl fs root <->
  exists ds nm,
    (ds, nm) ∈ walk fs root
    /\ endswith (normcase fl nm) ".json" = true
    /\ p = joinpath root (ds ++ [nm])
    /\ forall part, part ∈ parts p -> ~ excluded_name part.
Proof.
  intros _.
  rewrite elem_of_find_json_files, elem_of_rglob, should_exclude_path_false, Forall_forall.
  split.
  - intros (Hkeep & ds & nm & Hin & Hm & ->). exists ds, nm.
    by rewrite <- fnmatch_json.
  - intros (ds & nm & Hin & Hm & -> & Hkeep). split; [done|].
    exists ds, nm. by rewrite fnmatch_json.
Qed.

Lemma find_json_files_exactly_witness :
  joinpath Sample.windows_root ["foaf"; "voc.json"]
    ∈ find_json_files Windows Sample.windows_fs Sample.windows_root
  <-> exists ds nm,
        (ds, nm) ∈ walk Sample.windows_fs Sample.windows_root
        /\ endswith (normcase Windows nm) ".json" = true
        /\ joinpath Sample.windows_root ["foaf"; "voc.json"]
           = joinpath Sample.windows_root (ds ++ [nm])
        /\ forall part,
             part ∈ parts (joinpath Sample.windows_root ["foaf"; "voc.json"]) ->
             ~ excluded_name part.
Proof.
  apply (find_json_files_exactly Windows Sample.windows_fs Sample.windows_root).
  intros e He. simpl in He.
  repeat (apply elem_of_cons in He as [-> | He]); [repeat constructor..|].
  by apply elem_of_nil in He.
Defined.

Section Discovered.
Context (fl : Flavour) (REPO_ROOT : Path) (fs : FileSystem).
Context (isoformat : Z -> result string).

Local Abbreviation extract := (extract_metadata fl REPO_ROOT fs isoformat).

Lemma extract_found_raises (p : Path) (e : exn) (w w' : World) :
  p ∈ find_json_files fl fs REPO_ROOT ->
  extract p w = (Raise e, w') ->
  caught e = false
  /\ w' = w
  /\ (json_load fs p = Raise e
      \/ (exists f data,
            file_at fs p = Some f /\ content f = Document data
            /\ isoformat (st_mtime f) = Raise e)
      \/ (exists f data t msg,
            file_at fs p = Some f /\ content f = Document data
            /\ isoformat (st_mtime f) = Ok t
            /\ (forall d, data <> PDict d)
            /\ e = AttributeError msg)).
Proof.
  intros (ds & nm & -> & Hnm)%found_below_root Hraise.
  destruct (json_load fs (joinpath REPO_ROOT (ds ++ [nm]))) as [data|e0] eqn:Hload.
  - pose proof Hload as (f & Hfile & Hdoc)%json_load_Ok.
    destruct (isoformat (st_mtime f)) as [t|e0] eqn:Htime.
    + destruct data as [| | | | | |d].
      7: { by rewrite (extract_metadata_dict fl REPO_ROOT fs isoformat ds nm f d t w)
             in Hraise. }
      all: rewrite (extract_metadata_not_dict fl REPO_ROOT fs isoformat ds nm f _ t w)
             in Hraise by done.
      all: simplify_eq; split; [done|]; split; [done|]; right; right.
      all: eexists f, _, t, _; by repeat split.
    + rewrite (extract_metadata_time_raises fl REPO_ROOT fs isoformat ds nm f data e0 w)
        in Hraise by done.
      destruct (caught e0) eqn:Hc; simplify_eq.
      split; [done|]. split; [done|]. right; left. by exists f, data.
  - rewrite (extract_metadata_load_raises fl REPO_ROOT fs isoformat _ _ _ Hload) in Hraise.
    destruct (caught e0) eqn:Hc; simplify_eq. split; [done|]. split; [done|]. by left.
Qed.

(** X5. For a file that [find_json_files] returned, [relative_to] and
    [with_suffix] never fail.  An exception that leaves [extract_metadata]
    is none of those the script catches, nothing has been printed, and it
    is: the exception that loading the file raised; or the exception that
    rendering the modification time raised; or the [AttributeError] of a
    document that is not an object. *)
Theorem found_file_failures (p : Path) (e : exn) (w w' : World) :
  p ∈ find_json_files fl fs REPO_ROOT ->
  extract p w = (Raise e, w') ->
  caught e = false
  /\ w' = w
  /\ (json_load fs p = Raise e
      \/ (exists f data,
            file_at fs p = Some f /\ content f = Document data
            /\ isoformat (st_mtime f) = Raise e)
      \/ (exists f data t msg,
            file_at fs p = Some f /\ content f = Document data
            /\ isoformat (st_mtime f) = Ok t
            /\ (forall d, data <> PDict d)
            /\ e = AttributeError msg)).
Proof. apply extract_found_raises. Qed.
End Discovered.

Lemma found_file_failures_witness :
  caught (ValueError "year 10000 is out of range") = false
  /\ initial = initial
  /\ (json_load Sample.fs_future (joinpath Sample.root ["foaf"; "voc.json"])
      = Raise (ValueError "year 10000 is out of range")
      \/ (exists f data,
            file_at Sample.fs_future (joinpath Sample.root ["foaf"; "voc.json"]) = Some f
            /\ content f = Document data
            /\ Sample.isoformat (st_mtime f) = Raise (ValueError "year 10000 is out of range"))
      \/ (exists f data t msg,
            file_at Sample.fs_future (joinpath Sample.root ["foaf"; "voc.json"]) = Some f
            /\ content f = Document data
            /\ Sample.isoformat (st_mtime f) = Ok t
            /\ (forall d, data <> PDict d)
            /\ ValueError "year 10000 is out of range" = AttributeError msg)).
Proof.
  apply (found_file_failures Posix Sample.root Sample.fs_future Sample.isoformat
           (joinpath Sample.root ["foaf"; "voc.json"]) _ initial initial).
  - refine (bool_decide_unpack _ _). vm_compute. exact I.
  - vm_compute. reflexivity.
Defined.



(** ** The whole run *)

Section Run.
Context (fl : Flavour) (REPO_ROOT : Path) (fs : FileSystem).
Context (isoformat : Z -> result string) (py_str : value -> string).

Local Abbreviation found := (find_json_files fl fs REPO_ROOT).
Local Abbreviation run := (generate_index fl REPO_ROOT fs isoformat py_str).
Local Abbreviation records := (extracted fl REPO_ROOT fs isoformat found).
Local Abbreviation warnings := (printed fl REPO_ROOT fs isoformat found).

(** Among files on which [extract_metadata] does not raise, each gives a
    record or a warning. *)
Lemma record_or_warning (paths : list Path) :
  Forall (fun p => raises fl REPO_ROOT fs isoformat p = false) paths ->
  Forall (fun p =>
            (exists md, outcome fl REPO_ROOT fs isoformat p = Ok (Some md)
                        /\ dict_keys md = CSV_HEADERS
                        /\ lines_of fl REPO_ROOT fs isoformat p = [])
            \/ (exists e, caught e = true
                         /\ outcome fl REPO_ROOT fs isoformat p = Ok None
                         /\ lines_of fl REPO_ROOT fs isoformat p = [warning_line fl p e]))
         paths
  /\ length (extracted fl REPO_ROOT fs isoformat paths)
     + length (printed fl REPO_ROOT fs isoformat paths)
     = length paths.
Proof.
  induction 1 as [|p paths Hp _ [IH1 IH2]]; [by split|].
  rewrite extracted_cons. unfold printed in *. cbn [map concat]. rewrite length_app.
  unfold raises in Hp.
  destruct (outcome_cases fl REPO_ROOT fs isoformat p)
    as [(md & Ho & Hk & Hl) | [(e & Hc & Ho & Hl) | (e & Hc & Ho & Hl)]];
    rewrite Ho in Hp |- *; [| |done]; rewrite Hl.
  - split; [|simpl; lia]. constructor; [|done]. left. by exists md.
  - split; [|simpl; lia]. constructor; [|done]. right. by exists e.
Qed.

(** X6. When [extract_metadata] raises on none of the files found and every
    record it returns can be encoded, the run returns.  The index holds the
    records [extract_metadata] returned, in the order of the paths; every
    file gives a record and prints nothing, or gives no record and prints
    its warning; the lines printed are the notice (when nothing was found),
    these warnings and the summary, whose count is the number of records
    written. *)
Theorem run_returns_when_files_load (output_file : Path) (w : World) :
  Forall (fun p => raises fl REPO_ROOT fs isoformat p = false) found ->
  forallb (writable py_str) records = true ->
  run output_file w
  = (Ok tt,
     mkWorld (stdout (after_notice found w) ++ warnings
              ++ summary fl records output_file)
             (Some (index_text py_str records)))
  /\ Forall (fun p =>
               (exists md, outcome fl REPO_ROOT fs isoformat p = Ok (Some md)
                           /\ dict_keys md = CSV_HEADERS
                           /\ lines_of fl REPO_ROOT fs isoformat p = [])
               \/ (exists e, caught e = true
                            /\ outcome fl REPO_ROOT fs isoformat p = Ok None
                            /\ lines_of fl REPO_ROOT fs isoformat p = [warning_line fl p e]))
            found
  /\ length records + length warnings = length found.
Proof.
  intros Hfine Hwr.
  destruct (record_or_warning found Hfine) as [Heach Hlen].
  split; [|done].
  destruct (generate_index_cases fl REPO_ROOT fs isoformat py_str output_file w)
    as [[_ ->]|(before & p & after & e & Hsplit & _ & Hp & _)].
  - by rewrite Hwr.
  - rewrite Hsplit in Hfine. apply Forall_app in Hfine as [_ Hfine].
    inv Hfine. unfold raises in *. by rewrite Hp in *.
Qed.

(** X7. A run raises in one of two ways.  Either [extract_metadata] raises
    on one of the files found, the first such in the order of the paths,
    with an exception the script does not catch: the run stops there and the
    output file is as it was.  Or every file was read and a record cannot be
    encoded: the exception is the [UnicodeEncodeError] of the write, and the
    index holds the header and the records before that one.  Nothing else
    raises; in particular the writer never refuses the keys of a record. *)
Theorem run_aborts_only_on_bad_file (output_file : Path) (w w' : World) (e : exn) :
  run output_file w = (Raise e, w') ->
  (exists before p after,
      found = before ++ p :: after
      /\ Forall (fun p => raises fl REPO_ROOT fs isoformat p = false) before
      /\ outcome fl REPO_ROOT fs isoformat p = Raise e
      /\ caught e = false
      /\ outfile w' = outfile w
      /\ stdout w' = stdout (after_notice found w)
                     ++ printed fl REPO_ROOT fs isoformat before)
  \/ (e = encode_error
      /\ Forall (fun p => raises fl REPO_ROOT fs isoformat p = false) found
      /\ forallb (writable py_str) records = false
      /\ outfile w' = Some (index_text py_str (writable_prefix py_str records))
      /\ stdout w' = stdout (after_notice found w) ++ warnings).
Proof.
  intros Hrun.
  destruct (generate_index_cases fl REPO_ROOT fs isoformat py_str output_file w)
    as [[Hall Heq]|(before & p & after & e0 & Hsplit & Hall & Hp & Heq)];
    rewrite Heq in Hrun.
  - destruct (forallb (writable py_str) records) eqn:Hwr; [done|].
    right. by simplify_eq.
  - left. simplify_eq. exists before, p, after. split; [done|]. split; [done|].
    split; [done|]. split; [|by rewrite outfile_emit, outfile_after_notice].
    destruct (outcome_cases fl REPO_ROOT fs isoformat p)
      as [(md & Ho & _) | [(e1 & _ & Ho & _) | (e1 & Hc & Ho & _)]]; congruence.
Qed.
End Run.

Lemma run_returns_when_files_load_witness :
  generate_index Posix Sample.root Sample.fs_drafts Sample.isoformat Sample.py_str
    Sample.output_file initial
  = (Ok tt,
     mkWorld (stdout (after_notice (find_json_files Posix Sample.fs_drafts Sample.root)
                        initial)
              ++ printed Posix Sample.root Sample.fs_drafts Sample.isoformat
                   (find_json_files Posix Sample.fs_drafts Sample.root)
              ++ summary Posix
                   (extracted Posix Sample.root Sample.fs_drafts Sample.isoformat
                      (find_json_files Posix Sample.fs_drafts Sample.root))
                   Sample.output_file)
             (Some (index_text Sample.py_str
                      (extracted Posix Sample.root Sample.fs_drafts Sample.isoformat
                         (find_json_files Posix Sample.fs_drafts Sample.root)))))
  /\ Forall (fun p =>
               (exists md,
                   outcome Posix Sample.root Sample.fs_drafts Sample.isoformat p
                   = Ok (Some md)
                   /\ dict_keys md = CSV_HEADERS
                   /\ lines_of Posix Sample.root Sample.fs_drafts Sample.isoformat p = [])
               \/ (exists e, caught e = true
                            /\ outcome Posix Sample.root Sample.fs_drafts Sample.isoformat p
                               = Ok None
                            /\ lines_of Posix Sample.root Sample.fs_drafts Sample.isoformat p
                               = [warning_line Posix p e]))
            (find_json_files Posix Sample.fs_drafts Sample.root)
  /\ length (extracted Posix Sample.root Sample.fs_drafts Sample.isoformat
               (find_json_files Posix Sample.fs_drafts Sample.root))
     + length (printed Posix Sample.root Sample.fs_drafts Sample.isoformat
                 (find_json_files Posix Sample.fs_drafts Sample.root))
     = length (find_json_files Posix Sample.fs_drafts Sample.root).
Proof.
  apply (run_returns_when_files_load Posix Sample.root Sample.fs_drafts).
  - refine (bool_decide_unpack _ _). vm_compute. exact I.
  - vm_compute. reflexivity.
Defined.

Lemma run_aborts_only_on_bad_file_witness :
  let found := find_json_files Posix Sample.fs_surrogate Sample.root in
  let records := extracted Posix Sample.root Sample.fs_surrogate Sample.isoformat found in
  let w' :=
    mkWorld []
      (Some (header_line
             +:+ "foaf/voc,voc.json,,FOAF,,,,,2023-11-14T22:19:20"
             +:+ Csv.lineterminator)) in
  (exists before p after,
      found = before ++ p :: after
      /\ Forall (fun p => raises Posix Sample.root Sample.fs_surrogate Sample.isoformat p
                          = false) before
      /\ outcome Posix Sample.root Sample.fs_surrogate Sample.isoformat p
         = Raise encode_error
      /\ caught encode_error = false
      /\ outfile w' = outfile initial
      /\ stdout w' = stdout (after_notice found initial)
                     ++ printed Posix Sample.root Sample.fs_surrogate Sample.isoformat before)
  \/ (encode_error = encode_error
      /\ Forall (fun p => raises Posix Sample.root Sample.fs_surrogate Sample.isoformat p
                          = false) found
      /\ forallb (writable Sample.py_str) records = false
      /\ outfile w' = Some (index_text Sample.py_str (writable_prefix Sample.py_str records))
      /\ stdout w' = stdout (after_notice found initial)
                     ++ printed Posix Sample.root Sample.fs_surrogate Sample.isoformat found).
Proof.
  apply (run_aborts_only_on_bad_file Posix Sample.root Sample.fs_surrogate Sample.isoformat
           Sample.py_str Sample.output_file initial).
  vm_compute. reflexivity.
Defined.

(** A label with a lone surrogate is read without complaint and stops the
    writing of the index half-way: the run raises and leaves an index that
    lacks the record and those after it. *)
Example surrogate_truncates_index :
  generate_index Posix Sample.root Sample.fs_surrogate Sample.isoformat Sample.py_str
    Sample.output_file initial
  = (Raise encode_error,
     mkWorld []
       (Some (header_line
              +:+ "foaf/voc,voc.json,,FOAF,,,,,2023-11-14T22:19:20"
              +:+ Csv.lineterminator))).
Proof. vm_compute. reflexivity. Qed.

(** ** The [id] tells the files apart *)

Lemma contains_app (c : ascii) (s t : string) :
  contains c (s +:+ t) = contains c s || contains c t.
Proof.
  induction s as [|a s IH]; str_simpl; [done|]. by rewrite IH, orb_assoc.
Qed.

(** A text cut at its first separator is cut in one way only. *)
Lemma split_at_sep (c : ascii) (x x' r r' : string) :
  contains c x = false -> contains c x' = false ->
  x +:+ String c r = x' +:+ String c r' -> x = x' /\ r = r'.
Proof.
  revert x'. induction x as [|a x IH]; intros [|a' x']; str_simpl.
  - intros _ _ [= ->]. done.
  - intros _ [Ha _]%orb_false_iff [= <- _]. by rewrite Ascii.eqb_refl in Ha.
  - intros [Ha _]%orb_false_iff _ [= -> _]. by rewrite Ascii.eqb_refl in Ha.
  - intros [_ Hx]%orb_false_iff [_ Hx']%orb_false_iff [= -> Heq].
    destruct (IH x' Hx Hx' Heq) as [-> ->]. done.
Qed.

(** Names that do not hold the separator can be read back from their
    join. *)
Lemma concat_sep_inj (c : ascii) (l1 l2 : list string) :
  l1 <> [] -> l2 <> [] ->
  Forall (fun s => contains c s = false) l1 ->
  Forall (fun s => contains c s = false) l2 ->
  String.concat (String c EmptyString) l1 = String.concat (String c EmptyString) l2 ->
  l1 = l2.
Proof.
  revert l2. induction l1 as [|x l1 IH]; intros [|x' l2] Hne1 Hne2 H1 H2; try done.
  inv H1. inv H2.
  destruct l1 as [|y l1], l2 as [|y' l2]; rewrite ?concat_cons_cons; str_simpl.
  - by intros ->.
  - intros ->. rewrite contains_app in *. simpl in *.
    rewrite Ascii.eqb_refl, orb_true_r in *. done.
  - intros <-. rewrite contains_app in *. simpl in *.
    rewrite Ascii.eqb_refl, orb_true_r in *. done.
  - intros [-> Heq]%split_at_sep; [|done..]. f_equal. by apply IH.
Qed.

Lemma sep_sep_char fl : sep fl = String (sep_char fl) EmptyString.
Proof. by destruct fl. Qed.

(** X9. Two JSON objects below the root, in files named [<base>.json] with a
    base that is not empty and with modification times that can be rendered,
    get the same [id] only when they are the same file, as long as no name
    holds the separator of the platform (as is the case in a file
    system). *)
Theorem file_ids_distinct fl REPO_ROOT fs isoformat
    (ds1 ds2 : list string) (b1 b2 : string) (f1 f2 : File) (d1 d2 : dict)
    (t1 t2 : string) (w : World) :
  file_at fs (joinpath REPO_ROOT (ds1 ++ [b1 +:+ ".json"])) = Some f1 ->
  content f1 = Document (PDict d1) ->
  isoformat (st_mtime f1) = Ok t1 ->
  file_at fs (joinpath REPO_ROOT (ds2 ++ [b2 +:+ ".json"])) = Some f2 ->
  content f2 = Document (PDict d2) ->
  isoformat (st_mtime f2) = Ok t2 ->
  b1 <> "" -> b2 <> "" ->
  Forall (fun s => contains (sep_char fl) s = false) (ds1 ++ [b1]) ->
  Forall (fun s => contains (sep_char fl) s = false) (ds2 ++ [b2]) ->
  exists md1 md2,
    extract_metadata fl REPO_ROOT fs isoformat (joinpath REPO_ROOT (ds1 ++ [b1 +:+ ".json"])) w
    = (Ok (Some md1), w)
    /\ extract_metadata fl REPO_ROOT fs isoformat (joinpath REPO_ROOT (ds2 ++ [b2 +:+ ".json"])) w
       = (Ok (Some md2), w)
    /\ (dict_get md1 "id" PNone = dict_get md2 "id" PNone -> ds1 = ds2 /\ b1 = b2).
Proof.
  intros Hf1 Hc1 Ht1 Hf2 Hc2 Ht2 Hb1 Hb2 Hs1 Hs2.
  assert (forall b, b <> "" -> b +:+ ".json" <> "") as Hnm by (by intros [|]).
  eexists _, _.
  split; [by eapply extract_metadata_dict; [| | |apply Hnm]|].
  split; [by eapply extract_metadata_dict; [| | |apply Hnm]|].
  change (PStr (String.concat (sep fl) (ds1 ++ [stem (b1 +:+ ".json")]))
          = PStr (String.concat (sep fl) (ds2 ++ [stem (b2 +:+ ".json")]))
          -> ds1 = ds2 /\ b1 = b2).
  rewrite (stem_ext b1 "json" Hb1 ltac:(done) eq_refl : stem (b1 +:+ ".json") = b1).
  rewrite (stem_ext b2 "json" Hb2 ltac:(done) eq_refl : stem (b2 +:+ ".json") = b2).
  rewrite sep_sep_char.
  intros [= Hid]. apply concat_sep_inj in Hid; [|by destruct ds1|by destruct ds2|done..].
  by apply app_inj_tail in Hid.
Qed.

Lemma file_ids_distinct_witness :
  exists md1 md2,
    extract_metadata Posix Sample.root Sample.fs Sample.isoformat
      (joinpath Sample.root (["foaf"] ++ ["voc" +:+ ".json"])) initial
    = (Ok (Some md1), initial)
    /\ extract_metadata Posix Sample.root Sample.fs Sample.isoformat
         (joinpath Sample.root (["dcterms"] ++ ["voc" +:+ ".json"])) initial
       = (Ok (Some md2), initial)
    /\ (dict_get md1 "id" PNone = dict_get md2 "id" PNone
        -> ["foaf"] = ["dcterms"] /\ "voc" = "voc").
Proof.
  apply (file_ids_distinct Posix Sample.root Sample.fs Sample.isoformat
           ["foaf"] ["dcterms"] "voc" "voc" Sample.foaf Sample.dcterms
           [ ("label", PStr "FOAF") ]
           [ ("label", PStr "Dublin Core"); ("prefix", PStr "dcterms") ]
           "2023-11-14T22:19:20" "2023-11-14T22:13:20").
  - reflexivity.
  - reflexivity.
  - reflexivity.
  - reflexivity.
  - reflexivity.
  - reflexivity.
  - discriminate.
  - discriminate.
  - repeat constructor.
  - repeat constructor.
Defined.

(** The base must not be empty: a file named [.json] keeps its whole name,
    and so does the [.json] left of [.json.json]; the two get one [id]. *)
Example dotfiles_share_an_id :
  find_json_files Posix Sample.fs_dotfiles Sample.root
  = [ joinpath Sample.root ["skos"; ".json"]; joinpath Sample.root ["skos"; ".json.json"] ]
  /\ generate_index Posix Sample.root Sample.fs_dotfiles Sample.isoformat Sample.py_str
       Sample.output_file initial
     = (Ok tt,
        mkWorld
          [ "✓ Generated index with 2 vocabulary configuration(s)";
            "✓ Index saved to: vocabulary_index.csv" ]
          (Some (header_line
                 +:+ "skos/.json,.json,,FOAF,,,,,2023-11-14T22:19:20"
                 +:+ Csv.lineterminator
                 +:+ "skos/.json,.json.json,,Dublin Core,,dcterms,,,2023-11-14T22:13:20"
                 +:+ Csv.lineterminator))).
Proof. split; vm_compute; reflexivity. Qed.
